(** * PyAnalyzer: the analysis core of [app.py]

    A shallow embedding of the [PyAnalyzer] class of [src/app.py] and of the
    module-level bootstrap of the [outputs] folder.  The class is a thin
    layer over pandas, matplotlib and seaborn; the calls it makes into those
    libraries are modelled here on structured data (a data frame is a list of
    named, typed columns of cells), the file system is a finite map from
    paths to inodes, and pyplot is a stack of figures.  Floating-point
    results and text rendering of pandas objects are kept symbolic. *)

From stdpp Require Import base option list gmap strings pretty sorting.
From Stdlib Require Import Ascii QArith Qcanon.

Set Default Proof Using "Type".
Set Warnings "-clear-no-such-hyp".

(** ** Python strings and [os.path] *)

Module Str.

(** [s[i:]] and [s[:i]] for [0 <= i]. *)
Fixpoint from (i : nat) (s : string) : string :=
  match i, s with
  | O, _ => s
  | S _, EmptyString => EmptyString
  | S i', String _ r => from i' r
  end.

Fixpoint upto (i : nat) (s : string) : string :=
  match i, s with
  | O, _ => EmptyString
  | S _, EmptyString => EmptyString
  | S i', String a r => String a (upto i' r)
  end.

(** [s.rfind(c)]: the index of the last occurrence of [c], or [-1]. *)
Fixpoint rfind (c : ascii) (s : string) : Z :=
  match s with
  | EmptyString => (-1)%Z
  | String a r =>
      let i := rfind c r in
      if (0 <=? i)%Z then (i + 1)%Z
      else if decide (a = c) then 0%Z else (-1)%Z
  end.

(** [c in s] for a one-character [c]. *)
Fixpoint mem (c : ascii) (s : string) : Prop :=
  match s with
  | EmptyString => False
  | String a r => a = c ∨ mem c r
  end.

(** [sub in s]: [sub] occurs in [s] as a contiguous substring. *)
Definition contains (s sub : string) : Prop :=
  ∃ pre post, s = pre +:+ sub +:+ post.

(** Every character of [s] is [c]. *)
Fixpoint all_eq (c : ascii) (s : string) : bool :=
  match s with
  | EmptyString => true
  | String a r => bool_decide (a = c) && all_eq c r
  end.

End Str.

Module OsPath.

Definition sep : ascii := "/"%char.
Definition extsep : ascii := "."%char.

(** [posixpath.basename]: [i = p.rfind('/') + 1; return p[i:]]. *)
Definition basename (p : string) : string :=
  let i := (Str.rfind sep p + 1)%Z in
  Str.from (Z.to_nat i) p.

(** [posixpath.dirname]: the part before the last slash, with trailing
    slashes removed unless the head consists of slashes only. *)
Fixpoint rstrip_sep_rev (r : string) : string :=
  match r with
  | String a r' => if decide (a = sep) then rstrip_sep_rev r' else r
  | EmptyString => EmptyString
  end.

Definition rstrip_sep (s : string) : string :=
  String.rev (rstrip_sep_rev (String.rev s)).

Definition dirname (p : string) : string :=
  let i := (Str.rfind sep p + 1)%Z in
  let head := Str.upto (Z.to_nat i) p in
  if Str.all_eq sep head then head else rstrip_sep head.

(** [genericpath._splitext]: the extension starts at the last dot of the
    last path component, unless only dots precede it there. *)
Definition splitext (p : string) : string * string :=
  let sepIndex := Str.rfind sep p in
  let dotIndex := Str.rfind extsep p in
  if (sepIndex <? dotIndex)%Z then
    let lead :=
      Str.upto (Z.to_nat (dotIndex - (sepIndex + 1)))
               (Str.from (Z.to_nat (sepIndex + 1)) p) in
    if Str.all_eq extsep lead then (p, EmptyString)
    else (Str.upto (Z.to_nat dotIndex) p, Str.from (Z.to_nat dotIndex) p)
  else (p, EmptyString).

End OsPath.

(** ** pandas: series, data frames and the operations the class calls *)

Module Pd.

(** The dtypes [pd.read_csv] infers with its default arguments. *)
Inductive dtype := int64 | float64 | bool_ | object_.

(** A non-missing entry.  A finite float is the rational it denotes. *)
Inductive scalar :=
| Int (z : Z)
| Float (q : Qc)
| Bool (b : bool)
| Str (s : string).

(** An entry of a column; [None] is a missing value (NaN). *)
Definition cell : Type := option scalar.

Record Series := { s_dtype : dtype; s_values : list cell }.

(** A frame: the length of its index and its columns in file order. *)
Record DataFrame := { index_len : nat; cols : list (string * Series) }.

Global Instance dtype_eq_dec : EqDecision dtype.
Proof. solve_decision. Defined.
Global Instance scalar_eq_dec : EqDecision scalar.
Proof. solve_decision. Defined.

(** [df.columns], [df.shape], [df.dtypes]. *)
Definition columns (df : DataFrame) : list string := (cols df).*1.
Definition shape (df : DataFrame) : nat * nat := (index_len df, length (cols df)).
Definition dtypes (df : DataFrame) : list (string * dtype) :=
  (λ c, (c.1, s_dtype c.2)) <$> cols df.

(** [column in df.columns]. *)
Definition has_column (df : DataFrame) (column : string) : bool :=
  bool_decide (column ∈ columns df).

(** [df[column]]: the first column of that name ([KeyError] if none). *)
Fixpoint assoc (column : string) (l : list (string * Series)) : option Series :=
  match l with
  | [] => None
  | (c, s) :: l' => if decide (c = column) then Some s else assoc column l'
  end.
Definition getitem (df : DataFrame) (column : string) : option Series :=
  assoc column (cols df).

(** [pd.api.types.is_numeric_dtype]: integer, float and boolean dtypes. *)
Definition is_numeric_dtype (d : dtype) : bool :=
  match d with
  | int64 | float64 | bool_ => true
  | object_ => false
  end.

(** [df.isnull().sum()]: per column, the number of missing entries. *)
Definition isnull (s : Series) : list bool := (λ c : cell, bool_decide (c = None)) <$> s_values s.
Definition sum_bool (l : list bool) : nat := length (filter (λ b, b = true) l).
Definition isnull_sum (df : DataFrame) : list (string * nat) :=
  (λ c, (c.1, sum_bool (isnull c.2))) <$> cols df.

(** What [read_csv] guarantees of the frame it returns: at least one
    column, distinct column names, columns as long as the index. *)
Record parsed (df : DataFrame) : Prop := {
  parsed_nonempty : cols df ≠ [];
  parsed_names : NoDup (columns df);
  parsed_len : ∀ c s, (c, s) ∈ cols df → length (s_values s) = index_len df
}.

Section value_counts.
Context {A : Type} `{EqDecision A}.

(** The counting loop of the hash table: keys stay in the order in
    which they were first inserted. *)
Fixpoint bump (v : A) (t : list (A * nat)) : list (A * nat) :=
  match t with
  | [] => [(v, 1%nat)]
  | (k, c) :: t' =>
      if decide (k = v) then (k, S c) :: t' else (k, c) :: bump v t'
  end.

Definition count_table (l : list A) : list (A * nat) :=
  foldl (λ t v, bump v t) [] l.

(** [sort_values(ascending=False)] on the counts, as an insertion
    sort: larger counts first, and equal counts keep the order they had
    in the table, which is the order pandas shows them in. *)
Fixpoint insert_desc (e : A * nat) (s : list (A * nat)) : list (A * nat) :=
  match s with
  | [] => [e]
  | y :: s' =>
      if decide (e.2 < y.2)%nat then y :: insert_desc e s' else e :: y :: s'
  end.

Definition sort_values_desc (t : list (A * nat)) : list (A * nat) :=
  foldr insert_desc [] t.

(** [Series.value_counts()] with its defaults ([sort=True],
    [ascending=False], [dropna=True]) on the entries of a column. *)
Definition value_counts_of (l : list (option A)) : list (A * nat) :=
  sort_values_desc (count_table (omap id l)).

(** [.head(n)], that is [iloc[:n]]: a negative [n] drops the last
    [-n] rows. *)
Definition head {B} (n : Z) (l : list B) : list B :=
  if (0 <=? n)%Z then take (Z.to_nat n) l
  else take (length l - Z.to_nat (- n)) l.

End value_counts.

Definition value_counts (s : Series) : list (scalar * nat) :=
  value_counts_of (s_values s).

End Pd.

Module Describe.
Import Pd.

(** The float64 reductions of [describe()], kept symbolic: a statistic
    is named by the reduction and the data it is taken over.  Quantiles
    are those of [Series.quantile], whose default interpolation is
    linear. *)
Inductive reduction := mean | std | min | quantile_linear (q : Qc) | max.

Inductive stat :=
| Count (n : nat)
| Reduce (r : reduction) (data : list scalar)
| Unique (n : nat)
| Top (v : option scalar)
| Freq (n : option nat).

Definition table : Type := list (string * list (string * stat)).

(** [Series.count()]: the number of non-missing entries. *)
Definition count (s : Series) : nat := length (omap id (s_values s)).

Definition describe_numeric_1d (s : Series) : list (string * stat) :=
  let data := omap id (s_values s) in
  [ ("count", Count (count s));
    ("mean", Reduce mean data);
    ("std", Reduce std data);
    ("min", Reduce min data);
    ("25%", Reduce (quantile_linear (Q2Qc (1 # 4))) data);
    ("50%", Reduce (quantile_linear (Q2Qc (1 # 2))) data);
    ("75%", Reduce (quantile_linear (Q2Qc (3 # 4))) data);
    ("max", Reduce max data) ].

Definition describe_categorical_1d (s : Series) : list (string * stat) :=
  let objcounts := value_counts s in
  [ ("count", Count (count s));
    ("unique", Unique (length objcounts));
    ("top", Top (fst <$> objcounts !! 0%nat));
    ("freq", Freq (snd <$> objcounts !! 0%nat)) ].

(** [select_describe_func]: booleans are described as categories. *)
Definition describe_1d (s : Series) : list (string * stat) :=
  match s_dtype s with
  | bool_ => describe_categorical_1d s
  | int64 | float64 => describe_numeric_1d s
  | object_ => describe_categorical_1d s
  end.

(** [select_dtypes(include=[np.number])]. *)
Definition is_number (d : dtype) : bool :=
  match d with
  | int64 | float64 => true
  | bool_ | object_ => false
  end.

Definition select_number (df : DataFrame) : list (string * Series) :=
  filter (λ c, is_number (s_dtype c.2) = true) (cols df).

(** [DataFrame.describe()] with no [include]/[exclude]: the numeric
    columns when there are some, every column otherwise; [None] is the
    [ValueError] raised for a frame without columns. *)
Definition describe (df : DataFrame) : option table :=
  match cols df with
  | [] => None
  | _ :: _ =>
      let data := select_number df in
      let data := match data with [] => cols df | _ :: _ => data end in
      Some ((λ c, (c.1, describe_1d c.2)) <$> data)
  end.

End Describe.

(** ** matplotlib / seaborn: figures *)

Module Plt.
Import Pd.

Record wedge := { w_label : scalar; w_size : nat; w_pct : Q }.

Inductive artist :=
| BarPlot (x : list nat) (y : list scalar) (palette : string)
| PieChart (wedges : list wedge) (autopct : string) (colors : string)
| HistPlot (data : list cell) (bins : Z) (kde : bool) (color : string).

(** [figsize] is [None] for the [rcParams] default. *)
Record Figure := {
  figsize : option (Z * Z);
  artists : list artist;
  title : string;
  xlabel : string;
  ylabel : string;
  tight : bool
}.

Definition new_figure (size : option (Z * Z)) : Figure :=
  {| figsize := size; artists := []; title := ""; xlabel := "";
     ylabel := ""; tight := false |}.

Definition add_artist (a : artist) (f : Figure) : Figure :=
  {| figsize := figsize f; artists := artists f ++ [a]; title := title f;
     xlabel := xlabel f; ylabel := ylabel f; tight := tight f |}.
Definition set_title (t : string) (f : Figure) : Figure :=
  {| figsize := figsize f; artists := artists f; title := t;
     xlabel := xlabel f; ylabel := ylabel f; tight := tight f |}.
Definition set_xlabel (t : string) (f : Figure) : Figure :=
  {| figsize := figsize f; artists := artists f; title := title f;
     xlabel := t; ylabel := ylabel f; tight := tight f |}.
Definition set_ylabel (t : string) (f : Figure) : Figure :=
  {| figsize := figsize f; artists := artists f; title := title f;
     xlabel := xlabel f; ylabel := t; tight := tight f |}.
Definition set_tight (f : Figure) : Figure :=
  {| figsize := figsize f; artists := artists f; title := title f;
     xlabel := xlabel f; ylabel := ylabel f; tight := true |}.

(** [Axes.pie]: [x = x / x.sum()], and [autopct] is applied to
    [100 * frac] of each wedge. *)
Definition total (x : list nat) : nat := foldr Nat.add 0%nat x.

Definition pct_of (n sx : nat) : Q :=
  (100 * (inject_Z (Z.of_nat n) / inject_Z (Z.of_nat sx)))%Q.

Definition pie_wedges (x : list nat) (labels : list scalar) : list wedge :=
  let sx := total x in
  zip_with (λ n l, {| w_label := l; w_size := n; w_pct := pct_of n sx |})
           x labels.

End Plt.

(** ** Exceptions, the file system and the state of the process *)

Inductive exn :=
| FileNotFoundError (msg : string)
| FileExistsError (path : string)
| PermissionError (path : string)
| IsADirectoryError (path : string)
| NotADirectoryError (path : string)
| ParserError
| KeyError (key : string)
| ValueError (msg : string).

Inductive outcome (A : Type) :=
| Return (a : A)
| Raise (e : exn).
Arguments Return {A} a.
Arguments Raise {A} e.

(** The content of a regular file: bytes, represented by what
    [pd.read_csv] makes of them (a frame, or [None] when they do not
    parse), or an image written by [savefig]. *)
Inductive file_data :=
| Bytes (read_csv : option Pd.DataFrame)
| Png (fig : Plt.Figure).

Inductive inode :=
| Directory
| Regular (readable writable : bool) (data : file_data).

Inductive event :=
| EvReadCsv (path : string)
| EvMakedirs (path : string)
| EvSavefig (path : string).

(** Paths are keys as the program spells them, relative to the working
    directory; [figures] is pyplot's stack of open figures, the current
    one first; [trace] records the calls that touch files, latest
    first. *)
Record World := {
  fs : gmap string inode;
  figures : list Plt.Figure;
  trace : list event
}.

Definition M (Σ A : Type) : Type := Σ → outcome A * Σ.

Definition ret {Σ A} (a : A) : M Σ A := λ σ, (Return a, σ).
Definition raise {Σ A} (e : exn) : M Σ A := λ σ, (Raise e, σ).
Definition bind {Σ A B} (m : M Σ A) (k : A → M Σ B) : M Σ B :=
  λ σ, match m σ with
       | (Return a, σ') => k a σ'
       | (Raise e, σ') => (Raise e, σ')
       end.

Notation "x ←' m ;' k" := (bind m (λ x, k))
  (at level 20, m at level 100, k at level 200, right associativity,
   format "'[v' x  ←'  m  ;' '/' k ']'").
Notation "m ;;' k" := (bind m (λ _, k))
  (at level 100, k at level 200, right associativity,
   format "'[v' m  ;;' '/' k ']'").

Definition with_fs (f : gmap string inode) (w : World) : World :=
  {| fs := f; figures := figures w; trace := trace w |}.
Definition with_figures (l : list Plt.Figure) (w : World) : World :=
  {| fs := fs w; figures := l; trace := trace w |}.
Definition logged (e : event) (w : World) : World :=
  {| fs := fs w; figures := figures w; trace := e :: trace w |}.

Module Os.

(** [os.path.exists]. *)
Definition path_exists (path : string) : M World bool :=
  λ w, (Return (bool_decide (is_Some (fs w !! path))), w).

(** [os.makedirs] of a one-component path. *)
Definition makedirs (path : string) : M World () :=
  λ w, let w := logged (EvMakedirs path) w in
       match fs w !! path with
       | Some _ => (Raise (FileExistsError path), w)
       | None => (Return (), with_fs (<[path := Directory]> (fs w)) w)
       end.

(** [open(path, "wb")] followed by writing [data] and closing: the
    file is created in an existing directory or truncated if it is
    there and writable. *)
Definition write_file (path : string) (data : file_data)
    (f : gmap string inode) : outcome (gmap string inode) :=
  match f !! path with
  | Some Directory => Raise (IsADirectoryError path)
  | Some (Regular r w _) =>
      if w then Return (<[path := Regular r w data]> f)
      else Raise (PermissionError path)
  | None =>
      let d := OsPath.dirname path in
      if decide (d = "") then Return (<[path := Regular true true data]> f)
      else match f !! d with
           | Some Directory => Return (<[path := Regular true true data]> f)
           | Some (Regular _ _ _) => Raise (NotADirectoryError path)
           | None =>
               Raise (FileNotFoundError
                        ("[Errno 2] No such file or directory: '" +:+ path +:+ "'"))
           end
  end.

End Os.

Module PdIO.

(** [pd.read_csv(path)]. *)
Definition read_csv (path : string) : M World Pd.DataFrame :=
  λ w, let w := logged (EvReadCsv path) w in
       match fs w !! path with
       | None =>
           (Raise (FileNotFoundError
                     ("[Errno 2] No such file or directory: '" +:+ path +:+ "'")), w)
       | Some Directory => (Raise (IsADirectoryError path), w)
       | Some (Regular r _ data) =>
           if r then
             match data with
             | Bytes (Some df) => (Return df, w)
             | Bytes None => (Raise ParserError, w)
             | Png _ => (Raise ParserError, w)
             end
           else (Raise (PermissionError path), w)
       end.

End PdIO.

Module Pyplot.
Import Plt.

(** [plt.figure(figsize=...)]: a new figure becomes the current one. *)
Definition figure (size : Z * Z) : M World () :=
  λ w, (Return (), with_figures (new_figure (Some size) :: figures w) w).

(** The current figure; pyplot opens one when there is none. *)
Definition current (w : World) : Figure * list Figure :=
  match figures w with
  | [] => (new_figure None, [])
  | f :: r => (f, r)
  end.

Definition draw (g : Figure → Figure) : M World () :=
  λ w, let '(f, r) := current w in
       (Return (), with_figures (g f :: r) w).

Definition gcf : M World Figure :=
  λ w, let '(f, r) := current w in
       (Return f, with_figures (f :: r) w).

Definition savefig (path : string) : M World () :=
  λ w, let '(f, r) := current w in
       let w := logged (EvSavefig path) (with_figures (f :: r) w) in
       match Os.write_file path (Png f) (fs w) with
       | Return f' => (Return (), with_fs f' w)
       | Raise e => (Raise e, w)
       end.

End Pyplot.

(** ** The program *)

(** Module level, lines 7-9: ensure the outputs folder exists. *)
Definition module_init : M World () :=
  e ←' Os.path_exists "outputs" ;'
  if negb e then Os.makedirs "outputs" else ret ().

Record PyAnalyzer := { df : Pd.DataFrame; file_name : string }.

(** The analyzer object next to the rest of the process state: a method
    reads its attributes from [this] and could assign to them. *)
Record State := { this : PyAnalyzer; world : World }.

Definition lift {A} (m : M World A) : M State A :=
  λ σ, let '(r, w) := m (world σ) in (r, {| this := this σ; world := w |}).

Definition get_self : M State PyAnalyzer := λ σ, (Return (this σ), σ).

(** The objects the summary formats with [str()]. *)
Inductive pyobj :=
| OShape (s : nat * nat)
| OColumns (l : list string)
| ODtypes (l : list (string * Pd.dtype))
| OCounts (l : list (string * nat))
| OTable (t : Describe.table).

Definition nl : string := String (ascii_of_nat 10) "".

(** [list.append]. *)
Definition push {A} (l : list A) (x : A) : list A := (l ++ [x])%list.

(** What a caller may ask of an analyzer, and what it gets back. *)
Inductive call :=
| GenerateSummary
| PlotBarChart (column : string) (top_n : Z) (save : bool)
| PlotPieChart (column : string) (top_n : Z) (save : bool)
| PlotHistogram (column : string) (bins : Z) (save : bool).

Inductive result :=
| Summary (text : string)
| Chart (fig : Plt.Figure).

Section PyAnalyzer.

(** [str()] of a shape tuple, of a list of names and of pandas series
    and frames: pandas' display code, not modelled. *)
Variable str_of : pyobj → string.

(** [__init__]. *)
Definition __init__ (file_path : string) : M World PyAnalyzer :=
  e ←' Os.path_exists file_path ;'
  if negb e then
    raise (FileNotFoundError ("The file " +:+ file_path +:+ " does not exist."))
  else
    d ←' PdIO.read_csv file_path ;'
    ret {| df := d;
           file_name := (OsPath.splitext (OsPath.basename file_path)).1 |}.

Definition describe (d : Pd.DataFrame) : M State Describe.table :=
  match Describe.describe d with
  | Some t => ret t
  | None => raise (ValueError "Cannot describe a DataFrame without columns")
  end.

Definition generate_summary : M State string :=
  self ←' get_self ;'
  let summary := [] in
  let summary := push summary ("Dataset Summary for " +:+ file_name self +:+ ":" +:+ nl) in
  let summary := push summary ("Shape: " +:+ str_of (OShape (Pd.shape (df self)))) in
  let summary := push summary (nl +:+ "Columns: " +:+ str_of (OColumns (Pd.columns (df self)))) in
  let summary := push summary (nl +:+ "Data Types:" +:+ nl +:+ str_of (ODtypes (Pd.dtypes (df self)))) in
  let summary := push summary (nl +:+ "Missing Values:" +:+ nl +:+ str_of (OCounts (Pd.isnull_sum (df self)))) in
  t ←' describe (df self) ;'
  let summary := push summary (nl +:+ "Basic Statistics:" +:+ nl +:+ str_of (OTable t)) in
  ret (String.concat nl summary).

(** [self.df[column]] once [column in self.df.columns] holds. *)
Definition getitem (d : Pd.DataFrame) (column : string) : M State Pd.Series :=
  match Pd.getitem d column with
  | Some s => ret s
  | None => raise (KeyError column)
  end.

Definition plot_bar_chart (column : string) (top_n : Z) (save : bool)
    : M State Plt.Figure :=
  self ←' get_self ;'
  if negb (Pd.has_column (df self) column) then
    raise (ValueError ("Column " +:+ column +:+ " not found in dataset."))
  else
    lift (Pyplot.figure (10, 6)%Z) ;;'
    s ←' getitem (df self) column ;'
    let value_counts := Pd.head top_n (Pd.value_counts s) in
    lift (Pyplot.draw
            (Plt.add_artist (Plt.BarPlot value_counts.*2 value_counts.*1 "viridis"))) ;;'
    lift (Pyplot.draw
            (Plt.set_title ("Bar Chart of " +:+ column +:+ " (Top " +:+ pretty top_n +:+ ")"))) ;;'
    lift (Pyplot.draw (Plt.set_xlabel "Count")) ;;'
    lift (Pyplot.draw (Plt.set_ylabel column)) ;;'
    lift (Pyplot.draw Plt.set_tight) ;;'
    (if save then
       lift (Pyplot.savefig
               ("outputs/" +:+ file_name self +:+ "_" +:+ column +:+ "_bar_chart.png"))
     else ret ()) ;;'
    lift Pyplot.gcf.

Definition plot_pie_chart (column : string) (top_n : Z) (save : bool)
    : M State Plt.Figure :=
  self ←' get_self ;'
  if negb (Pd.has_column (df self) column) then
    raise (ValueError ("Column " +:+ column +:+ " not found in dataset."))
  else
    lift (Pyplot.figure (8, 8)%Z) ;;'
    s ←' getitem (df self) column ;'
    let value_counts := Pd.head top_n (Pd.value_counts s) in
    lift (Pyplot.draw
            (Plt.add_artist
               (Plt.PieChart (Plt.pie_wedges value_counts.*2 value_counts.*1)
                             "%1.1f%%" "pastel"))) ;;'
    lift (Pyplot.draw
            (Plt.set_title ("Pie Chart of " +:+ column +:+ " (Top " +:+ pretty top_n +:+ ")"))) ;;'
    (if save then
       lift (Pyplot.savefig
               ("outputs/" +:+ file_name self +:+ "_" +:+ column +:+ "_pie_chart.png"))
     else ret ()) ;;'
    lift Pyplot.gcf.

Definition plot_histogram (column : string) (bins : Z) (save : bool)
    : M State Plt.Figure :=
  self ←' get_self ;'
  if negb (Pd.has_column (df self) column) then
    raise (ValueError ("Column " +:+ column +:+ " not found in dataset."))
  else
    s ←' getitem (df self) column ;'
    if negb (Pd.is_numeric_dtype (Pd.s_dtype s)) then
      raise (ValueError ("Column " +:+ column +:+ " must be numeric for histogram."))
    else
      lift (Pyplot.figure (10, 6)%Z) ;;'
      s ←' getitem (df self) column ;'
      lift (Pyplot.draw
              (Plt.add_artist (Plt.HistPlot (Pd.s_values s) bins true "skyblue"))) ;;'
      lift (Pyplot.draw (Plt.set_title ("Histogram of " +:+ column))) ;;'
      lift (Pyplot.draw (Plt.set_xlabel column)) ;;'
      lift (Pyplot.draw (Plt.set_ylabel "Frequency")) ;;'
      lift (Pyplot.draw Plt.set_tight) ;;'
      (if save then
         lift (Pyplot.savefig
                 ("outputs/" +:+ file_name self +:+ "_" +:+ column +:+ "_histogram.png"))
       else ret ()) ;;'
      lift Pyplot.gcf.

(** One request to the analyzer. *)
Definition perform (c : call) : M State result :=
  match c with
  | GenerateSummary => t ←' generate_summary ;' ret (Summary t)
  | PlotBarChart column top_n save =>
      f ←' plot_bar_chart column top_n save ;' ret (Chart f)
  | PlotPieChart column top_n save =>
      f ←' plot_pie_chart column top_n save ;' ret (Chart f)
  | PlotHistogram column bins save =>
      f ←' plot_histogram column bins save ;' ret (Chart f)
  end.

(** A sequence of requests; the caller reports an exception and goes
    on with the next request. *)
Fixpoint session (cs : list call) (σ : State) : list (outcome result) * State :=
  match cs with
  | [] => ([], σ)
  | c :: cs' =>
      let '(r, σ') := perform c σ in
      let '(rs, σ'') := session cs' σ' in
      (r :: rs, σ'')
  end.

End PyAnalyzer.

(** ** The specification's vocabulary *)

(** The value kinds of the data model, as declared by a column's dtype.
    [read_csv] is called without [parse_dates], so no column is temporal. *)
Inductive kind := Numeric | Textual | Temporal | Boolean.

Definition declared_kind (d : Pd.dtype) : kind :=
  match d with
  | Pd.int64 | Pd.float64 => Numeric
  | Pd.bool_ => Boolean
  | Pd.object_ => Textual
  end.

Definition ColumnNotFoundError (column : string) : exn :=
  ValueError ("Column " +:+ column +:+ " not found in dataset.").
Definition NotNumericError (column : string) : exn :=
  ValueError ("Column " +:+ column +:+ " must be numeric for histogram.").

Definition message (e : exn) : string :=
  match e with
  | FileNotFoundError m | ValueError m => m
  | FileExistsError p | PermissionError p | IsADirectoryError p
  | NotADirectoryError p | KeyError p => p
  | ParserError => ""
  end.

Inductive chart_kind := Bar | Pie | Histogram.

(** [renderBarChart], [renderPieChart] and [renderHistogram]; the third
    argument is [topN], or [bins] for a histogram. *)
Definition render (k : chart_kind) (column : string) (n : Z) (persist : bool)
    : M State Plt.Figure :=
  match k with
  | Bar => plot_bar_chart column n persist
  | Pie => plot_pie_chart column n persist
  | Histogram => plot_histogram column n persist
  end.

Definition suffix (k : chart_kind) : string :=
  match k with
  | Bar => "_bar_chart.png"
  | Pie => "_pie_chart.png"
  | Histogram => "_histogram.png"
  end.

(** [outputs/<display-name>_<column>_<chart-kind>.png]. *)
Definition chart_path (a : PyAnalyzer) (column : string) (k : chart_kind) : string :=
  "outputs/" +:+ file_name a +:+ "_" +:+ column +:+ suffix k.

Section ranking.
Context {A : Type} `{EqDecision A}.

(** The number of entries of [l] equal to [v]. *)
Definition occ (v : A) (l : list A) : nat := length (filter (λ x, x = v) l).

(** The distinct values of [l], each at its first occurrence. *)
Fixpoint first_seen (l : list A) : list A :=
  match l with
  | [] => []
  | x :: l' => x :: filter (λ y, y ≠ x) (first_seen l')
  end.




End ranking.

(** The non-missing entries of a column, in row order. *)
Definition observed (s : Pd.Series) : list Pd.scalar := omap id (Pd.s_values s).

(** The number of distinct values of a column ([Series.nunique()]). *)
Definition nunique (s : Pd.Series) : nat := length (remove_dups (observed s)).

(** The entries a bar or pie chart shows for a column. *)
Definition selection (s : Pd.Series) (top_n : Z) : list (Pd.scalar * nat) :=
  Pd.head top_n (Pd.value_counts s).

(** The figures the three chart methods build. *)
Definition bar_figure (column : string) (top_n : Z) (s : Pd.Series) : Plt.Figure :=
  {| Plt.figsize := Some (10, 6)%Z;
     Plt.artists :=
       [Plt.BarPlot (selection s top_n).*2 (selection s top_n).*1 "viridis"];
     Plt.title := "Bar Chart of " +:+ column +:+ " (Top " +:+ pretty top_n +:+ ")";
     Plt.xlabel := "Count";
     Plt.ylabel := column;
     Plt.tight := true |}.

Definition pie_figure (column : string) (top_n : Z) (s : Pd.Series) : Plt.Figure :=
  {| Plt.figsize := Some (8, 8)%Z;
     Plt.artists :=
       [Plt.PieChart
          (Plt.pie_wedges (selection s top_n).*2 (selection s top_n).*1)
          "%1.1f%%" "pastel"];
     Plt.title := "Pie Chart of " +:+ column +:+ " (Top " +:+ pretty top_n +:+ ")";
     Plt.xlabel := "";
     Plt.ylabel := "";
     Plt.tight := false |}.

Definition hist_figure (column : string) (bins : Z) (s : Pd.Series) : Plt.Figure :=
  {| Plt.figsize := Some (10, 6)%Z;
     Plt.artists := [Plt.HistPlot (Pd.s_values s) bins true "skyblue"];
     Plt.title := "Histogram of " +:+ column;
     Plt.xlabel := column;
     Plt.ylabel := "Frequency";
     Plt.tight := true |}.

Definition chart_figure (k : chart_kind) : string → Z → Pd.Series → Plt.Figure :=
  match k with
  | Bar => bar_figure
  | Pie => pie_figure
  | Histogram => hist_figure
  end.

(** The outcome of a chart method once its checks have passed: the new
    figure is the current one, and it is written to [path] if asked. *)
Definition rendered (fig : Plt.Figure) (path : string) (save : bool) (σ : State)
    : outcome Plt.Figure * State :=
  let w := with_figures (fig :: figures (world σ)) (world σ) in
  if save then
    let w' := logged (EvSavefig path) w in
    match Os.write_file path (Png fig) (fs w') with
    | Return f' => (Return fig, {| this := this σ; world := with_fs f' w' |})
    | Raise e => (Raise e, {| this := this σ; world := w' |})
    end
  else (Return fig, {| this := this σ; world := w |}).

(** A method that leaves the analyzer object as it found it. *)
Definition preserves_this {A} (m : M State A) : Prop :=
  ∀ σ, this (m σ).2 = this σ.

Global Instance kind_eq_dec : EqDecision kind.
Proof. solve_decision. Defined.

(** The numeric columns of a frame, by declared kind. *)
Definition numeric_columns (d : Pd.DataFrame) : list string :=
  (filter (λ c, declared_kind (Pd.s_dtype c.2) = Numeric) (Pd.cols d)).*1.

(** The number of missing entries of a column. *)
Definition missing (s : Pd.Series) : nat :=
  length (filter (λ c : Pd.cell, c = None) (Pd.s_values s)).

(** ** A small data set *)

Module Sample.
Import Pd.

Definition city : Series :=
  {| s_dtype := object_;
     s_values := [Some (Str "a"); Some (Str "a"); Some (Str "b");
                  Some (Str "c"); Some (Str "a"); Some (Str "b")] |}.

Definition flag : Series :=
  {| s_dtype := bool_;
     s_values := [Some (Bool true); None; Some (Bool false);
                  Some (Bool true); Some (Bool true); Some (Bool false)] |}.

Definition speed : Series :=
  {| s_dtype := int64;
     s_values := [Some (Int 50); Some (Int 30); None;
                  Some (Int 50); Some (Int 90); Some (Int 30)] |}.

Definition sales : DataFrame :=
  {| index_len := 6;
     cols := [("city", city); ("flag", flag); ("km/h", speed)] |}.

(** A file of text columns only. *)
Definition towns : DataFrame :=
  {| index_len := 6; cols := [("city", city)] |}.

Definition disk : gmap string inode :=
  <["data" := Directory]>
    (<["data/sales.csv" := Regular true true (Bytes (Some sales))]>
       (<["data/towns.csv" := Regular true true (Bytes (Some towns))]>
          (<["data/locked.csv" := Regular false true (Bytes (Some sales))]> ∅))).

Definition boot : World := {| fs := disk; figures := []; trace := [] |}.

Definition analyzer : PyAnalyzer := {| df := sales; file_name := "sales" |}.

(** The state once the module has been loaded and [data/sales.csv]
    has been opened. *)
Definition ready : State :=
  {| this := analyzer;
     world := {| fs := <["outputs" := Directory]> disk;
                 figures := [];
                 trace := [EvReadCsv "data/sales.csv"; EvMakedirs "outputs"] |} |}.

Definition towns_ready : State :=
  {| this := {| df := towns; file_name := "towns" |}; world := world ready |}.

End Sample.

(** The six parts of the summary, in the order of the report. *)
Definition summary_parts (str_of : pyobj → string) (a : PyAnalyzer)
    (t : Describe.table) : list string :=
  [ "Dataset Summary for " +:+ file_name a +:+ ":" +:+ nl;
    "Shape: " +:+ str_of (OShape (Pd.index_len (df a), length (Pd.cols (df a))));
    nl +:+ "Columns: " +:+ str_of (OColumns (Pd.cols (df a)).*1);
    nl +:+ "Data Types:" +:+ nl
       +:+ str_of (ODtypes ((λ c, (c.1, Pd.s_dtype c.2)) <$> Pd.cols (df a)));
    nl +:+ "Missing Values:" +:+ nl
       +:+ str_of (OCounts ((λ c, (c.1, missing c.2)) <$> Pd.cols (df a)));
    nl +:+ "Basic Statistics:" +:+ nl +:+ str_of (OTable t) ].

(** The row labels of the statistics of a numeric column. *)
Definition numeric_labels : list string :=
  ["count"; "mean"; "std"; "min"; "25%"; "50%"; "75%"; "max"].

(** ** The script around the class: file listing and the chart tab *)

Module PyStr.

(** [s.endswith(suffix)]. *)
Fixpoint endswith (s suffix : string) : bool :=
  if decide (s = suffix) then true
  else match s with
       | EmptyString => false
       | String _ r => endswith r suffix
       end.

(** [s.startswith(prefix)], returning what follows the prefix. *)
Fixpoint removeprefix (prefix s : string) : option string :=
  match prefix, s with
  | EmptyString, _ => Some s
  | String a p, String b r => if decide (a = b) then removeprefix p r else None
  | String _ _, EmptyString => None
  end.

Definition startswith (s prefix : string) : bool :=
  bool_decide (is_Some (removeprefix prefix s)).

Global Instance mem_dec c s : Decision (Str.mem c s).
Proof. induction s as [|a s IH]; simpl; apply _. Defined.

End PyStr.

Module Posix.

(** [posixpath.join(a, b)]. *)
Definition join (a b : string) : string :=
  if PyStr.startswith b "/" then b
  else if decide (a = "") then a +:+ b
  else if PyStr.endswith a "/" then a +:+ b
  else a +:+ "/" +:+ b.

(** The name under which [p] is an entry of the directory [d], if it is
    one: what follows [d/], when that is a single path component. *)
Definition entry_name (d p : string) : option string :=
  match PyStr.removeprefix (d +:+ "/") p with
  | Some n => if decide (n ≠ "" ∧ ¬ Str.mem "/" n) then Some n else None
  | None => None
  end.

(** [os.listdir(path)]: the names of the entries of a directory, in the
    order the file system gives them. *)
Definition listdir (path : string) : M World (list string) :=
  λ w, match fs w !! path with
       | Some Directory =>
           (Return (omap (entry_name path) (map_to_list (fs w)).*1), w)
       | Some (Regular _ _ _) => (Raise (NotADirectoryError path), w)
       | None =>
           (Raise (FileNotFoundError
                     ("[Errno 2] No such file or directory: '" +:+ path +:+ "'")), w)
       end.

End Posix.

Global Instance Q_eq_dec : EqDecision Q.
Proof. solve_decision. Defined.
Global Instance wedge_eq_dec : EqDecision Plt.wedge.
Proof. solve_decision. Defined.
Global Instance artist_eq_dec : EqDecision Plt.artist.
Proof. solve_decision. Defined.
Global Instance Figure_eq_dec : EqDecision Plt.Figure.
Proof. solve_decision. Defined.

(** [plt.close(fig)]: the figure leaves pyplot's stack. *)
Fixpoint remove_figure (fig : Plt.Figure) (l : list Plt.Figure) : list Plt.Figure :=
  match l with
  | [] => []
  | f :: r => if decide (f = fig) then r else f :: remove_figure fig r
  end.

Definition plt_close (fig : Plt.Figure) : M World () :=
  λ w, (Return (), with_figures (remove_figure fig (figures w)) w).

(** Lines 87-91: the data folder is created if absent and the files
    offered for selection are its entries ending in [.csv]. *)
Definition data_folder : string := "data".

Definition csv_files : M World (list string) :=
  e ←' Os.path_exists data_folder ;'
  (if negb e then Os.makedirs data_folder else ret ()) ;;'
  names ←' Posix.listdir data_folder ;'
  ret (filter (λ f, PyStr.endswith f ".csv" = true) names).

(** The options of the select box. *)
Definition file_options (files : list string) : list string :=
  "Select a file" :: files.

(** Lines 93-97: nothing is opened for the placeholder; any other
    selection is joined to the data folder and opened. *)
Definition open_selected (selected_file : string) : M World (option PyAnalyzer) :=
  if decide (selected_file ≠ "Select a file") then
    let file_path := Posix.join data_folder selected_file in
    analyzer ←' __init__ file_path ;'
    ret (Some analyzer)
  else ret None.

(** What the page shows. *)
Inductive element :=
| StHeader (text : string)
| StSubheader (text : string)
| StPyplot (fig : Plt.Figure).

(** The analyzer and the process next to the page built so far. *)
Record Page := { app : State; shown : list element }.

Definition on_app {A} (m : M State A) : M Page A :=
  λ p, let '(r, σ) := m (app p) in (r, {| app := σ; shown := shown p |}).

Definition st_show (e : element) : M Page () :=
  λ p, (Return (), {| app := app p; shown := shown p ++ [e] |}).

(** Lines 116-140, the chart tab, for the values of its widgets: the
    selected column, the top-N slider, the save check box and the bins
    slider (read only when the column is numeric). *)
Definition visualizations (column : string) (top_n : Z) (save_plots : bool)
    (bins : Z) : M Page () :=
  st_show (StHeader "Visualizations") ;;'
  st_show (StSubheader ("Bar Chart: " +:+ column)) ;;'
  fig ←' on_app (plot_bar_chart column top_n save_plots) ;'
  st_show (StPyplot fig) ;;'
  on_app (lift (plt_close fig)) ;;'
  st_show (StSubheader ("Pie Chart: " +:+ column)) ;;'
  fig ←' on_app (plot_pie_chart column top_n save_plots) ;'
  st_show (StPyplot fig) ;;'
  on_app (lift (plt_close fig)) ;;'
  analyzer ←' on_app get_self ;'
  s ←' on_app (getitem (df analyzer) column) ;'
  if Pd.is_numeric_dtype (Pd.s_dtype s) then
    st_show (StSubheader ("Histogram: " +:+ column)) ;;'
    fig ←' on_app (plot_histogram column bins save_plots) ;'
    st_show (StPyplot fig) ;;'
    on_app (lift (plt_close fig))
  else ret ().

(** The sum of the percentages of a pie. *)
Definition pct_sum (wedges : list Plt.wedge) : Q :=
  foldr (λ w acc, (Plt.w_pct w + acc)%Q) 0%Q wedges.

(** The effect of one chart method on the process: the files differ at
    most at the chart's path, where a PNG then is, and at most one
    figure has been put on top of pyplot's stack. *)
Definition chart_effect (a : PyAnalyzer) (w w' : World) : Prop :=
  (∀ p, fs w' !! p = fs w !! p
        ∨ ∃ column k r wr fig,
            p = chart_path a column k
            ∧ column ∈ Pd.columns (df a)
            ∧ fs w' !! p = Some (Regular r wr (Png fig)))
  ∧ ∃ new, figures w' = new ++ figures w ∧ (length new ≤ 1)%nat.

(** ** More sample states *)

Module Cases.

(** A data folder holding a file named [.csv]. *)
Definition hidden : World :=
  {| fs := <["data" := Directory]>
             (<["data/.csv" := Regular true true (Bytes (Some Sample.towns))]> ∅);
     figures := [];
     trace := [] |}.




(** The page before the chart tab is drawn. *)
Definition page : Page := {| app := Sample.ready; shown := [] |}.

End Cases.

(** * Theorems *)

(** ** The library models on small inputs *)

Example basename_ex : OsPath.basename "data/sales.2024.csv" = "sales.2024.csv".
Proof. reflexivity. Qed.

Example splitext_ex :
  OsPath.splitext "sales.2024.csv" = ("sales.2024", ".csv")
  ∧ OsPath.splitext ".hidden" = (".hidden", "")
  ∧ OsPath.splitext "noext" = ("noext", "").
Proof. repeat split; reflexivity. Qed.

Example dirname_ex :
  OsPath.dirname "outputs/sales_city_bar_chart.png" = "outputs"
  ∧ OsPath.dirname "outputs/sales_km/h_bar_chart.png" = "outputs/sales_km"
  ∧ OsPath.dirname "plain.png" = "".
Proof. repeat split; reflexivity. Qed.

Example value_counts_ex :
  Pd.head 2 (Pd.value_counts_of
               [Some "a"; Some "a"; Some "b"; Some "c"; Some "a"; Some "b"])
  = [("a", 3%nat); ("b", 2%nat)].
Proof. reflexivity. Qed.

Example value_counts_ties :
  Pd.value_counts_of [Some "x"; None; Some "y"; Some "z"; Some "y"; Some "x"; Some "w"]
  = [("x", 2%nat); ("y", 2%nat); ("z", 1%nat); ("w", 1%nat)].
Proof. reflexivity. Qed.

Example head_negative : Pd.head (-1) [1; 2; 3]%nat = [1; 2]%nat.
Proof. reflexivity. Qed.

(** ** Strings and paths *)

Module StrFacts.
Import Str.

Lemma app_nil_l (s : string) : "" +:+ s = s.
Proof. reflexivity. Qed.

Lemma app_cons a (s t : string) : String a s +:+ t = String a (s +:+ t).
Proof. reflexivity. Qed.

Lemma app_nil_r (s : string) : s +:+ "" = s.
Proof.
  induction s as [|a s IH]; [done|]. by rewrite app_cons, IH.
Qed.

Lemma app_assoc (a b c : string) : (a +:+ b) +:+ c = a +:+ b +:+ c.
Proof.
  induction a as [|x a IH]; [done|]. by rewrite !app_cons, IH.
Qed.

Lemma mem_app c (a b : string) : mem c (a +:+ b) ↔ mem c a ∨ mem c b.
Proof.
  induction a as [|x a IH]; [rewrite app_nil_l; simpl; tauto|].
  rewrite app_cons. simpl. rewrite IH. tauto.
Qed.

Lemma upto_from i s : upto i s +:+ from i s = s.
Proof.
  revert s. induction i as [|i IH]; intros [|a s]; simpl; try done.
  by rewrite app_cons, IH.
Qed.

Lemma mem_upto c i s : mem c (upto i s) → mem c s.
Proof. intros H. rewrite <- (upto_from i s). apply mem_app. by left. Qed.

Lemma mem_from c i s : mem c (from i s) → mem c s.
Proof. intros H. rewrite <- (upto_from i s). apply mem_app. by right. Qed.


Lemma rfind_absent c s : ¬ mem c s → rfind c s = (-1)%Z.
Proof.
  induction s as [|a s IH]; simpl; [done|]. intros Hm.
  rewrite IH by tauto. simpl.
  destruct (decide (a = c)); [tauto | done].
Qed.




Lemma all_eq_spec c s : all_eq c s = true → ∀ d, mem d s → d = c.
Proof.
  induction s as [|a s IH]; simpl; [tauto|].
  intros [Ha Hs]%andb_prop d [<-|Hd]; [by apply bool_decide_eq_true in Ha | eauto].
Qed.

Lemma contains_mid (pre sub post : string) : contains (pre +:+ sub +:+ post) sub.
Proof. by exists pre, post. Qed.

End StrFacts.

Module OsPathFacts.
Import Str StrFacts OsPath.




End OsPathFacts.

(** ** Counting and ranking *)

Section value_counts_facts.
Context {A : Type} `{EqDecision A}.
Implicit Types (l : list A) (t s : list (A * nat)) (v : A).

Lemma count_table_snoc l v :
  Pd.count_table (l ++ [v]) = Pd.bump v (Pd.count_table l).
Proof. unfold Pd.count_table. by rewrite foldl_app. Qed.

Lemma occ_snoc v l x :
  occ v (l ++ [x]) = (occ v l + if decide (x = v) then 1 else 0)%nat.
Proof.
  unfold occ. rewrite filter_app, length_app. f_equal.
  rewrite filter_cons. by destruct (decide (x = v)).
Qed.

Lemma occ_absent v l : v ∉ l → occ v l = 0%nat.
Proof.
  unfold occ. induction l as [|x l IH]; [done|].
  rewrite not_elem_of_cons. intros [Hne Hl].
  rewrite filter_cons, decide_False by done. by apply IH.
Qed.

Lemma occ_pos v l : v ∈ l → (0 < occ v l)%nat.
Proof.
  intros Hv. unfold occ.
  assert (v ∈ filter (λ x, x = v) l) as Hf by (by apply list_elem_of_filter).
  destruct (filter _ l); [by apply elem_of_nil in Hf | simpl; lia].
Qed.

Lemma elem_of_first_seen v l : v ∈ first_seen l ↔ v ∈ l.
Proof.
  induction l as [|x l IH]; simpl; [done|].
  rewrite !elem_of_cons, list_elem_of_filter, IH.
  destruct (decide (v = x)); naive_solver.
Qed.

Lemma NoDup_first_seen l : NoDup (first_seen l).
Proof.
  induction l as [|x l IH]; simpl; [constructor|].
  constructor; [|by apply NoDup_filter].
  rewrite list_elem_of_filter. naive_solver.
Qed.

Lemma first_seen_snoc l x :
  first_seen (l ++ [x]) = first_seen l ++ (if decide (x ∈ l) then [] else [x]).
Proof.
  induction l as [|a l IH]; simpl.
  - destruct (decide (x ∈ [])) as [Hx|]; [by apply elem_of_nil in Hx | done].
  - rewrite IH, filter_app. f_equal. f_equal.
    destruct (decide (x ∈ l)) as [Hl|Hl].
    + rewrite decide_True by (by right). done.
    + destruct (decide (x = a)) as [->|Hne].
      * rewrite decide_True by (by left).
        rewrite filter_cons, decide_False by naive_solver. done.
      * rewrite decide_False by (rewrite elem_of_cons; naive_solver).
        rewrite filter_cons, decide_True by done. done.
Qed.

(** [bump] on a table whose keys are distinct. *)
Lemma bump_absent v t : v ∉ t.*1 → Pd.bump v t = t ++ [(v, 1%nat)].
Proof.
  induction t as [|[k c] t IH]; simpl; [done|].
  rewrite not_elem_of_cons. intros [Hne Hv].
  rewrite decide_False by done. by rewrite IH.
Qed.

Lemma bump_present (f : A → nat) v (ks : list A) :
  v ∈ ks → NoDup ks →
  Pd.bump v ((λ k, (k, f k)) <$> ks)
  = (λ k, (k, (f k + if decide (v = k) then 1 else 0)%nat)) <$> ks.
Proof.
  induction ks as [|k ks IH]; simpl; [by intros ?%elem_of_nil|].
  intros Hv [Hk Hnd]%NoDup_cons.
  destruct (decide (k = v)) as [->|Hne].
  - rewrite decide_True by done. f_equal; [f_equal; lia|].
    apply list_fmap_ext. intros i k Hi.
    rewrite decide_False; [f_equal; lia|].
    intros ->. apply Hk. by eapply list_elem_of_lookup_2.
  - rewrite decide_False by done. f_equal; [f_equal; lia|].
    apply IH; [|done]. apply elem_of_cons in Hv as [->|]; done.
Qed.

(** The table lists the distinct values in the order in which they
    were first seen, each with its number of occurrences. *)
Lemma count_table_spec l :
  Pd.count_table l = (λ v, (v, occ v l)) <$> first_seen l.
Proof.
  induction l as [|x l IH] using rev_ind; [done|].
  rewrite count_table_snoc, IH, first_seen_snoc.
  destruct (decide (x ∈ l)) as [Hx|Hx].
  - rewrite app_nil_r, bump_present;
      [|by apply elem_of_first_seen|apply NoDup_first_seen].
    apply list_fmap_ext. intros i v _. by rewrite occ_snoc.
  - rewrite bump_absent.
    2:{ rewrite <- list_fmap_compose. simpl. rewrite list_fmap_id.
        by rewrite elem_of_first_seen. }
    rewrite fmap_app. simpl. f_equal.
    + apply list_fmap_ext. intros i v Hv. rewrite occ_snoc.
      rewrite decide_False; [f_equal; lia|]. intros ->. apply Hx.
      apply elem_of_first_seen. by eapply list_elem_of_lookup_2.
    + by rewrite occ_snoc, decide_True, occ_absent.
Qed.



End value_counts_facts.

Section sort_facts.
Context {A : Type} `{EqDecision A}.
Implicit Types (t s : list (A * nat)) (e : A * nat).

Lemma insert_desc_perm e s : Pd.insert_desc e s ≡ₚ e :: s.
Proof.
  induction s as [|y s IH]; simpl; [done|].
  destruct (decide (e.2 < y.2)%nat); [|done].
  rewrite IH. apply Permutation_swap.
Qed.

Lemma sort_values_desc_perm t : Pd.sort_values_desc t ≡ₚ t.
Proof.
  induction t as [|e t IH]; simpl; [done|].
  by rewrite insert_desc_perm, IH.
Qed.




Lemma total_bump (v : A) t :
  Plt.total (Pd.bump v t).*2 = S (Plt.total t.*2).
Proof.
  unfold Plt.total. induction t as [|[k c] t IH]; csimpl; [done|].
  destruct (decide (k = v)); csimpl; [done|]. rewrite IH. lia.
Qed.

Lemma total_perm (x y : list nat) : x ≡ₚ y → Plt.total x = Plt.total y.
Proof.
  unfold Plt.total. induction 1; simpl; lia.
Qed.

Lemma total_count_table (l : list A) :
  Plt.total (Pd.count_table l).*2 = length l.
Proof.
  induction l as [|x l IH] using rev_ind; [done|].
  rewrite count_table_snoc, total_bump, IH, length_app. simpl. lia.
Qed.

End sort_facts.

(** The ranking computed by [value_counts()]. *)
Section ranking_facts.
Context {A : Type} `{EqDecision A}.
Implicit Types (l : list (option A)) (v : A).

Lemma ranking_perm l :
  Pd.value_counts_of l
  ≡ₚ (λ v, (v, occ v (omap id l))) <$> first_seen (omap id l).
Proof.
  unfold Pd.value_counts_of.
  by rewrite sort_values_desc_perm, count_table_spec.
Qed.

Lemma ranking_keys l : (Pd.value_counts_of l).*1 ≡ₚ first_seen (omap id l).
Proof.
  rewrite ranking_perm, <- list_fmap_compose. simpl. by rewrite list_fmap_id.
Qed.


Lemma elem_of_ranking l v c :
  (v, c) ∈ Pd.value_counts_of l ↔ Some v ∈ l ∧ c = occ v (omap id l).
Proof.
  rewrite ranking_perm, list_elem_of_fmap.
  setoid_rewrite elem_of_first_seen. setoid_rewrite list_elem_of_omap.
  split.
  - intros (w & [= -> ->] & (x & Hx & Hw)). simpl in Hw. subst x. done.
  - intros [Hv ->]. exists v. split; [done|]. by exists (Some v).
Qed.


Lemma ranking_length l :
  length (Pd.value_counts_of l) = length (remove_dups (omap id l)).
Proof.
  rewrite <- (length_fmap fst), ranking_keys.
  apply Permutation_length, NoDup_Permutation.
  - apply NoDup_first_seen.
  - apply NoDup_remove_dups.
  - intros v. by rewrite elem_of_first_seen, elem_of_remove_dups.
Qed.

Lemma ranking_total l :
  Plt.total (Pd.value_counts_of l).*2 = length (omap id l).
Proof.
  unfold Pd.value_counts_of.
  rewrite (total_perm _ (Pd.count_table (omap id l)).*2).
  - apply total_count_table.
  - by rewrite sort_values_desc_perm.
Qed.

Lemma ranking_count_pos l e : e ∈ Pd.value_counts_of l → (0 < e.2)%nat.
Proof.
  destruct e as [v c]. rewrite elem_of_ranking. intros [Hv ->]. simpl.
  apply occ_pos, list_elem_of_omap. by exists (Some v).
Qed.

End ranking_facts.

(** ** The checks and the chart methods *)

Lemma has_column_true d column :
  Pd.has_column d column = true ↔ column ∈ Pd.columns d.
Proof. unfold Pd.has_column. by rewrite bool_decide_eq_true. Qed.

Lemma has_column_false d column :
  Pd.has_column d column = false ↔ column ∉ Pd.columns d.
Proof. unfold Pd.has_column. by rewrite bool_decide_eq_false. Qed.

Lemma assoc_Some column l s :
  Pd.assoc column l = Some s → (column, s) ∈ l.
Proof.
  induction l as [|[c s'] l IH]; simpl; [done|].
  destruct (decide (c = column)) as [->|].
  - intros [= ->]. by left.
  - intros H. right. by apply IH.
Qed.

Lemma assoc_is_Some column l :
  column ∈ l.*1 → is_Some (Pd.assoc column l).
Proof.
  induction l as [|[c s'] l IH]; csimpl; [by intros ?%elem_of_nil|].
  destruct (decide (c = column)); [by eexists|].
  intros [?|?]%elem_of_cons; [congruence | by apply IH].
Qed.

Lemma getitem_Some d column s :
  Pd.getitem d column = Some s → column ∈ Pd.columns d ∧ (column, s) ∈ Pd.cols d.
Proof.
  intros Hs%assoc_Some. split; [|done].
  unfold Pd.columns. apply list_elem_of_fmap. by exists (column, s).
Qed.

Lemma getitem_is_Some d column :
  column ∈ Pd.columns d → is_Some (Pd.getitem d column).
Proof. apply assoc_is_Some. Qed.

Local Ltac run_method :=
  unfold bind, lift, get_self, getitem, raise, ret,
    Pyplot.figure, Pyplot.draw, Pyplot.gcf, Pyplot.savefig, Pyplot.current;
  simpl.

Lemma plot_bar_chart_absent column top_n save σ :
  column ∉ Pd.columns (df (this σ)) →
  plot_bar_chart column top_n save σ = (Raise (ColumnNotFoundError column), σ).
Proof.
  intros Hc%has_column_false. unfold plot_bar_chart. run_method.
  by rewrite Hc.
Qed.

Lemma plot_pie_chart_absent column top_n save σ :
  column ∉ Pd.columns (df (this σ)) →
  plot_pie_chart column top_n save σ = (Raise (ColumnNotFoundError column), σ).
Proof.
  intros Hc%has_column_false. unfold plot_pie_chart. run_method.
  by rewrite Hc.
Qed.

Lemma plot_histogram_absent column bins save σ :
  column ∉ Pd.columns (df (this σ)) →
  plot_histogram column bins save σ = (Raise (ColumnNotFoundError column), σ).
Proof.
  intros Hc%has_column_false. unfold plot_histogram. run_method.
  by rewrite Hc.
Qed.

Lemma plot_bar_chart_run column top_n save σ s :
  Pd.getitem (df (this σ)) column = Some s →
  plot_bar_chart column top_n save σ
  = rendered (bar_figure column top_n s) (chart_path (this σ) column Bar) save σ.
Proof.
  intros Hs. pose proof (getitem_Some _ _ _ Hs) as [Hc%has_column_true _].
  pose proof Hs as Hs'. unfold Pd.getitem in Hs'.
  unfold plot_bar_chart, rendered. run_method. rewrite Hc, Hs. simpl.
  destruct save; simpl; [|done].
  by destruct (Os.write_file _ _ _).
Qed.

Lemma plot_pie_chart_run column top_n save σ s :
  Pd.getitem (df (this σ)) column = Some s →
  plot_pie_chart column top_n save σ
  = rendered (pie_figure column top_n s) (chart_path (this σ) column Pie) save σ.
Proof.
  intros Hs. pose proof (getitem_Some _ _ _ Hs) as [Hc%has_column_true _].
  pose proof Hs as Hs'. unfold Pd.getitem in Hs'.
  unfold plot_pie_chart, rendered. run_method. rewrite Hc, Hs. simpl.
  destruct save; simpl; [|done].
  by destruct (Os.write_file _ _ _).
Qed.

Lemma plot_histogram_not_numeric column bins save σ s :
  Pd.getitem (df (this σ)) column = Some s →
  Pd.is_numeric_dtype (Pd.s_dtype s) = false →
  plot_histogram column bins save σ = (Raise (NotNumericError column), σ).
Proof.
  intros Hs Hn. pose proof (getitem_Some _ _ _ Hs) as [Hc%has_column_true _].
  pose proof Hs as Hs'. unfold Pd.getitem in Hs'.
  unfold plot_histogram. run_method. rewrite Hc. simpl.
  rewrite ?Hs, ?Hs'. simpl. by rewrite Hn.
Qed.

Lemma plot_histogram_run column bins save σ s :
  Pd.getitem (df (this σ)) column = Some s →
  Pd.is_numeric_dtype (Pd.s_dtype s) = true →
  plot_histogram column bins save σ
  = rendered (hist_figure column bins s) (chart_path (this σ) column Histogram) save σ.
Proof.
  intros Hs Hn. pose proof (getitem_Some _ _ _ Hs) as [Hc%has_column_true _].
  pose proof Hs as Hs'. unfold Pd.getitem in Hs'.
  unfold plot_histogram, rendered. run_method. rewrite Hc. simpl.
  rewrite ?Hs, ?Hs'. simpl. rewrite Hn. simpl. rewrite ?Hs, ?Hs'. simpl.
  destruct save; simpl; [|done].
  by destruct (Os.write_file _ _ _).
Qed.

(** ** The sample data *)


Example sample_parsed : Pd.parsed Sample.sales.
Proof.
  split.
  - done.
  - vm_compute. repeat constructor; set_solver.
  - intros c s Hc. repeat (apply elem_of_cons in Hc as [[= -> ->]|Hc]; [done|]).
    by apply elem_of_nil in Hc.
Qed.

(** ** Construction *)








(** ** Column checks *)


(** C4: a column name that is not in the data set makes each of the
    three chart methods fail with [ColumnNotFoundError], whose message
    contains the requested name; nothing else has happened by then. *)
Theorem C4_unknown_column k column n persist σ :
  column ∉ Pd.columns (df (this σ)) →
  render k column n persist σ = (Raise (ColumnNotFoundError column), σ)
  ∧ Str.contains (message (ColumnNotFoundError column)) column.
Proof.
  intros Hc. split; [|apply StrFacts.contains_mid].
  destruct k; simpl.
  - by apply plot_bar_chart_absent.
  - by apply plot_pie_chart_absent.
  - by apply plot_histogram_absent.
Qed.

Lemma C4_unknown_column_witness :
  ("price" ∉ Pd.columns (df (this Sample.ready)))
  ∧ (∀ k, render k "price" 10 true Sample.ready
          = (Raise (ColumnNotFoundError "price"), Sample.ready)).
Proof.
  assert ("price" ∉ Pd.columns (df (this Sample.ready))) as H.
  { vm_compute. set_solver. }
  split; [exact H|]. intros k.
  apply (C4_unknown_column k "price" 10 true Sample.ready H).
Defined.




(** ** The selection of the bar and pie charts *)


Lemma rendered_Return fig path save σ fig' :
  (rendered fig path save σ).1 = Return fig' → fig' = fig.
Proof.
  unfold rendered. destruct save; simpl; [|congruence].
  destruct (Os.write_file _ _ _); simpl; congruence.
Qed.


Lemma render_run k column n save σ s :
  Pd.getitem (df (this σ)) column = Some s →
  (k = Histogram → Pd.is_numeric_dtype (Pd.s_dtype s) = true) →
  render k column n save σ
  = rendered (chart_figure k column n s) (chart_path (this σ) column k) save σ.
Proof.
  intros Hs Hk. destruct k; simpl.
  - by apply plot_bar_chart_run.
  - by apply plot_pie_chart_run.
  - apply plot_histogram_run; auto.
Qed.

Lemma head_nonneg {B} (n : Z) (l : list B) :
  (0 ≤ n)%Z → Pd.head n l = take (Z.to_nat n) l.
Proof.
  intros Hn. unfold Pd.head. by rewrite (proj2 (Z.leb_le 0 n) Hn).
Qed.







(** ** Pie percentages *)

Lemma total_app (x y : list nat) :
  Plt.total (x ++ y) = (Plt.total x + Plt.total y)%nat.
Proof. unfold Plt.total. induction x as [|a x IH]; simpl; lia. Qed.

Lemma total_elem (x : list nat) n : n ∈ x → (n ≤ Plt.total x)%nat.
Proof.
  unfold Plt.total. induction x as [|a x IH]; [by intros ?%elem_of_nil|].
  intros [->|Hn]%elem_of_cons; simpl; [lia|]. specialize (IH Hn). lia.
Qed.

Lemma pie_wedges_fmap (sel : list (Pd.scalar * nat)) :
  Plt.pie_wedges sel.*2 sel.*1
  = (λ e, {| Plt.w_label := e.1; Plt.w_size := e.2;
             Plt.w_pct := Plt.pct_of e.2 (Plt.total sel.*2) |}) <$> sel.
Proof.
  unfold Plt.pie_wedges. by rewrite zip_with_fmap_l, zip_with_fmap_r, zip_with_diag.
Qed.

Lemma inject_nat_pos n : (0 < n)%nat → (0 < inject_Z (Z.of_nat n))%Q.
Proof. intros Hn. rewrite <- (Zlt_Qlt 0). lia. Qed.

(** A share of a smaller total is the larger percentage. *)
Lemma pct_of_lt n a b :
  (0 < n)%nat → (0 < a)%nat → (a < b)%nat →
  (Plt.pct_of n b < Plt.pct_of n a)%Q.
Proof.
  intros Hn Ha Hab. unfold Plt.pct_of.
  apply Qmult_lt_l; [done|]. unfold Qdiv.
  apply Qmult_lt_l; [by apply inject_nat_pos|].
  apply (proj1 (Qinv_lt_contravar (inject_Z (Z.of_nat a)) (inject_Z (Z.of_nat b))
                  (inject_nat_pos a Ha) (inject_nat_pos b ltac:(lia)))).
  rewrite <- Zlt_Qlt. lia.
Qed.

(** C6: with [top_n] below the number of distinct values, the pie has
    exactly [top_n] wedges, one for each selected value and sized by its
    count; the percentage of a wedge is its count over the sum of the
    counts shown, which is less than the number of entries counted in
    the column, so that it exceeds the value's share of the column. *)
Theorem C6_pie_percentages column top_n persist σ s :
  Pd.getitem (df (this σ)) column = Some s →
  (0 < top_n)%Z →
  (top_n < Z.of_nat (nunique s))%Z →
  let sel := selection s top_n in
  let wedges := Plt.pie_wedges sel.*2 sel.*1 in
  let shown := Plt.total (Plt.w_size <$> wedges) in
  (∀ fig, (plot_pie_chart column top_n persist σ).1 = Return fig →
          Plt.artists fig = [Plt.PieChart wedges "%1.1f%%" "pastel"])
  ∧ (plot_pie_chart column top_n false σ).1 = Return (pie_figure column top_n s)
  ∧ length wedges = Z.to_nat top_n
  ∧ (λ w, (Plt.w_label w, Plt.w_size w)) <$> wedges
    = take (Z.to_nat top_n) (Pd.value_counts s)
  ∧ (shown < length (observed s))%nat
  ∧ (∀ w, w ∈ wedges →
       Plt.w_pct w
       = (100 * (inject_Z (Z.of_nat (Plt.w_size w)) / inject_Z (Z.of_nat shown)))%Q
       ∧ (100 * (inject_Z (Z.of_nat (Plt.w_size w))
                 / inject_Z (Z.of_nat (length (observed s))))
          < Plt.w_pct w)%Q).
Proof.
  intros Hs Hn Hlt sel wedges shown.
  assert (length (Pd.value_counts s) = nunique s) as Hlen by apply ranking_length.
  assert (sel = take (Z.to_nat top_n) (Pd.value_counts s)) as Hsel.
  { unfold sel, selection. by rewrite head_nonneg by lia. }
  assert (wedges
          = (λ e, {| Plt.w_label := e.1; Plt.w_size := e.2;
                     Plt.w_pct := Plt.pct_of e.2 (Plt.total sel.*2) |}) <$> sel)
    as Hw by apply pie_wedges_fmap.
  assert (shown = Plt.total sel.*2) as Hshown.
  { unfold shown. rewrite Hw, <- list_fmap_compose. done. }
  assert (shown < length (observed s))%nat as Hless.
  { rewrite Hshown. unfold observed.
    rewrite <- (ranking_total (Pd.s_values s)).
    fold (Pd.value_counts s).
    rewrite <- (take_drop (Z.to_nat top_n) (Pd.value_counts s)) at 1.
    rewrite fmap_app, total_app, <- Hsel.
    destruct (drop (Z.to_nat top_n) (Pd.value_counts s)) as [|e r] eqn:Hd.
    { apply (f_equal length) in Hd. rewrite length_drop in Hd. simpl in Hd. lia. }
    assert (e ∈ Pd.value_counts s) as He.
    { rewrite <- (take_drop (Z.to_nat top_n) (Pd.value_counts s)), Hd.
      apply elem_of_app. right. by left. }
    apply ranking_count_pos in He. rewrite fmap_cons.
    change (Plt.total (e.2 :: r.*2)) with (e.2 + Plt.total r.*2)%nat. lia. }
  rewrite (plot_pie_chart_run _ _ _ _ _ Hs), (plot_pie_chart_run _ _ _ _ _ Hs).
  split_and!; try done.
  - by intros fig ->%rendered_Return.
  - rewrite Hw, length_fmap, Hsel, length_take. lia.
  - rewrite Hw, <- list_fmap_compose, <- Hsel. simpl.
    rewrite <- (list_fmap_id sel) at 2. apply list_fmap_ext. by intros i [v c] _.
  - intros w Hin. rewrite Hw in Hin.
    apply list_elem_of_fmap in Hin as (e & -> & He). simpl.
    rewrite Hshown. split; [done|].
    assert (e ∈ Pd.value_counts s) as He'.
    { rewrite Hsel in He. apply elem_of_take in He as (i & Hi & _).
      by eapply list_elem_of_lookup_2. }
    apply ranking_count_pos in He'.
    assert (e.2 ≤ Plt.total sel.*2)%nat as Hle.
    { apply total_elem, list_elem_of_fmap. by exists e. }
    apply (pct_of_lt e.2 (Plt.total sel.*2) (length (observed s))); [done|lia|].
    by rewrite <- Hshown.
Qed.

Lemma C6_pie_percentages_witness :
  (plot_pie_chart "city" 2 false Sample.ready).1
  = Return (pie_figure "city" 2 Sample.city)
  ∧ Plt.w_pct <$> Plt.pie_wedges (selection Sample.city 2).*2 (selection Sample.city 2).*1
    = [(300 # 5)%Q; (200 # 5)%Q].
Proof.
  split; [|reflexivity].
  apply (C6_pie_percentages "city" 2 false Sample.ready Sample.city).
  - reflexivity.
  - reflexivity.
  - vm_compute. reflexivity.
Defined.

(** ** The analyzer object is never assigned to *)

Section preservation.

Lemma preserves_ret {A} (a : A) : preserves_this (ret a).
Proof. by intros σ. Qed.

Lemma preserves_raise {A} e : preserves_this (@raise State A e).
Proof. by intros σ. Qed.

Lemma preserves_get_self : preserves_this get_self.
Proof. by intros σ. Qed.

Lemma preserves_lift {A} (m : M World A) : preserves_this (lift m).
Proof. intros σ. unfold lift. by destruct (m (world σ)). Qed.

Lemma preserves_bind {A B} (m : M State A) (k : A → M State B) :
  preserves_this m → (∀ a, preserves_this (k a)) → preserves_this (bind m k).
Proof.
  intros Hm Hk σ. unfold bind. specialize (Hm σ).
  destruct (m σ) as [[a|e] σ']; simpl in *; [|done].
  by rewrite Hk.
Qed.

Lemma preserves_getitem d column : preserves_this (getitem d column).
Proof.
  unfold getitem. destruct (Pd.getitem d column);
    [apply preserves_ret | apply preserves_raise].
Qed.

Lemma preserves_describe d : preserves_this (describe d).
Proof.
  unfold describe. destruct (Describe.describe d);
    [apply preserves_ret | apply preserves_raise].
Qed.

End preservation.

Create HintDb preserves.
#[export] Hint Resolve preserves_ret preserves_raise preserves_get_self
  preserves_lift preserves_getitem preserves_describe : preserves.

Ltac preserves :=
  repeat first
    [ progress auto with preserves
    | apply preserves_bind; [|intros ?]
    | match goal with
      | |- preserves_this (if ?b then _ else _) => destruct b
      end ].

Lemma preserves_generate_summary str_of : preserves_this (generate_summary str_of).
Proof. unfold generate_summary. preserves. Qed.

Lemma preserves_plot_bar_chart column top_n save :
  preserves_this (plot_bar_chart column top_n save).
Proof. unfold plot_bar_chart. preserves. Qed.

Lemma preserves_plot_pie_chart column top_n save :
  preserves_this (plot_pie_chart column top_n save).
Proof. unfold plot_pie_chart. preserves. Qed.

Lemma preserves_plot_histogram column bins save :
  preserves_this (plot_histogram column bins save).
Proof. unfold plot_histogram. preserves. Qed.

Lemma preserves_perform str_of c : preserves_this (perform str_of c).
Proof.
  destruct c; simpl; apply preserves_bind;
    auto using preserves_generate_summary, preserves_plot_bar_chart,
      preserves_plot_pie_chart, preserves_plot_histogram, preserves_ret.
Qed.

Lemma session_this str_of cs σ : this (session str_of cs σ).2 = this σ.
Proof.
  revert σ. induction cs as [|c cs IH]; intros σ; simpl; [done|].
  pose proof (preserves_perform str_of c σ) as Hc.
  destruct (perform str_of c σ) as [r σ']. simpl in Hc.
  specialize (IH σ'). destruct (session str_of cs σ') as [rs σ''].
  simpl in *. congruence.
Qed.

(** C9: whatever is asked of an analyzer, with whatever arguments, and
    whether it succeeds or raises, its data set and its display name are
    afterwards what they were; so they are after any sequence of
    requests. *)
Theorem C9_analyzer_unchanged str_of c cs σ :
  df (this (perform str_of c σ).2) = df (this σ)
  ∧ file_name (this (perform str_of c σ).2) = file_name (this σ)
  ∧ df (this (session str_of cs σ).2) = df (this σ)
  ∧ file_name (this (session str_of cs σ).2) = file_name (this σ).
Proof.
  by rewrite (preserves_perform str_of c σ), session_this.
Qed.

(** ** The summary *)

Lemma sum_bool_isnull s : Pd.sum_bool (Pd.isnull s) = missing s.
Proof.
  unfold Pd.sum_bool, Pd.isnull, missing.
  induction (Pd.s_values s) as [|c l IH]; [done|].
  rewrite fmap_cons, !filter_cons.
  destruct (decide (c = None)) as [Hc|Hc].
  - rewrite bool_decide_eq_true_2 by done.
    rewrite decide_True by done. simpl. by rewrite IH.
  - rewrite bool_decide_eq_false_2 by done.
    rewrite decide_False by done. done.
Qed.

Lemma isnull_sum_missing d :
  Pd.isnull_sum d = (λ c, (c.1, missing c.2)) <$> Pd.cols d.
Proof.
  unfold Pd.isnull_sum. apply list_fmap_ext. intros i c _.
  by rewrite sum_bool_isnull.
Qed.

Lemma generate_summary_run str_of σ :
  generate_summary str_of σ
  = (match Describe.describe (df (this σ)) with
     | Some t => Return (String.concat nl (summary_parts str_of (this σ) t))
     | None => Raise (ValueError "Cannot describe a DataFrame without columns")
     end, σ).
Proof.
  unfold generate_summary, bind, get_self, describe, ret, raise. simpl.
  destruct (Describe.describe (df (this σ))); [|done].
  unfold summary_parts, push. simpl. by rewrite isnull_sum_missing.
Qed.

(** C8: the summary is a function of the analyzer alone: two states
    with the same analyzer, whatever their files and figures, give the
    same content; asking for it changes nothing, so a second request
    returns what the first did, at once or after any other requests. *)
Theorem C8_summary_deterministic str_of cs σ σ' :
  this σ' = this σ →
  (generate_summary str_of σ').1 = (generate_summary str_of σ).1
  ∧ (generate_summary str_of σ).2 = σ
  ∧ (generate_summary str_of (generate_summary str_of σ).2).1
    = (generate_summary str_of σ).1
  ∧ (generate_summary str_of (session str_of cs σ).2).1
    = (generate_summary str_of σ).1.
Proof.
  intros Hthis. rewrite !generate_summary_run. simpl.
  by rewrite session_this, Hthis.
Qed.

Lemma C8_summary_deterministic_witness :
  (generate_summary (λ _, "")
     (plot_bar_chart "city" 10 true Sample.ready).2).1
  = (generate_summary (λ _, "") Sample.ready).1.
Proof.
  apply (C8_summary_deterministic (λ _, "") []
           Sample.ready (plot_bar_chart "city" 10 true Sample.ready).2).
  vm_compute. reflexivity.
Defined.

Lemma is_number_kind dt :
  Describe.is_number dt = true ↔ declared_kind dt = Numeric.
Proof. by destruct dt. Qed.

Lemma select_number_names d :
  (Describe.select_number d).*1 = numeric_columns d.
Proof.
  unfold Describe.select_number, numeric_columns. f_equal.
  apply list_filter_iff. intros c. apply is_number_kind.
Qed.

Lemma describe_Some d :
  Pd.cols d ≠ [] →
  Describe.describe d
  = Some ((λ c, (c.1, Describe.describe_1d c.2))
            <$> (match Describe.select_number d with
                 | [] => Pd.cols d
                 | _ :: _ => Describe.select_number d
                 end)).
Proof. unfold Describe.describe. by destruct (Pd.cols d). Qed.

Lemma describe_1d_numeric s :
  declared_kind (Pd.s_dtype s) = Numeric →
  Describe.describe_1d s = Describe.describe_numeric_1d s.
Proof. unfold Describe.describe_1d. by destruct (Pd.s_dtype s). Qed.

(** C5 (as amended): for an analyzer over a parsed file, the summary is
    the display-name header, the shape, the column names, the dtypes,
    the missing-value counts and the statistics, in this order; the
    shape is the number of rows of every column and the number of
    columns; the names and dtypes are those of the columns in file
    order; a missing-value count is the number of missing entries of
    its column; the statistics cover the numeric columns, each with
    count, mean, std, min, the three quartiles (linear interpolation)
    and max, unless no column is numeric, when they cover every
    column. *)
Theorem C5_summary str_of σ :
  Pd.parsed (df (this σ)) →
  let d := df (this σ) in
  ∃ t,
    generate_summary str_of σ
    = (Return
         (("Dataset Summary for " +:+ file_name (this σ) +:+ ":" +:+ nl) +:+ nl
          +:+ ("Shape: " +:+ str_of (OShape (Pd.shape d))) +:+ nl
          +:+ (nl +:+ "Columns: " +:+ str_of (OColumns (Pd.columns d))) +:+ nl
          +:+ (nl +:+ "Data Types:" +:+ nl +:+ str_of (ODtypes (Pd.dtypes d))) +:+ nl
          +:+ (nl +:+ "Missing Values:" +:+ nl
               +:+ str_of (OCounts ((λ c, (c.1, missing c.2)) <$> Pd.cols d))) +:+ nl
          +:+ (nl +:+ "Basic Statistics:" +:+ nl +:+ str_of (OTable t))),
       σ)
    ∧ (∀ c s, (c, s) ∈ Pd.cols d → length (Pd.s_values s) = (Pd.shape d).1)
    ∧ (Pd.shape d).2 = length (Pd.columns d)
    ∧ Pd.columns d = (Pd.cols d).*1
    ∧ Pd.dtypes d = (λ c, (c.1, Pd.s_dtype c.2)) <$> Pd.cols d
    ∧ t.*1 = (match numeric_columns d with
              | [] => Pd.columns d
              | _ :: _ => numeric_columns d
              end)
    ∧ (∀ c s, (c, s) ∈ Pd.cols d → declared_kind (Pd.s_dtype s) = Numeric →
              (c, Describe.describe_numeric_1d s) ∈ t
              ∧ (Describe.describe_numeric_1d s).*1 = numeric_labels)
    ∧ (numeric_columns d ≠ [] →
       ∀ c stats, (c, stats) ∈ t → stats.*1 = numeric_labels).
Proof.
  intros [Hne Hnd Hlen] d. fold d in Hne, Hlen.
  pose proof (describe_Some d Hne) as Ht.
  pose proof (select_number_names d) as Hsel.
  exists ((λ c, (c.1, Describe.describe_1d c.2))
            <$> (match Describe.select_number d with
                 | [] => Pd.cols d
                 | _ :: _ => Describe.select_number d
                 end)).
  split; [|split_and!].
  - rewrite generate_summary_run. fold d. rewrite Ht. reflexivity.
  - intros c s Hc. simpl. by eapply Hlen.
  - unfold Pd.columns. by rewrite length_fmap.
  - done.
  - done.
  - rewrite <- list_fmap_compose.
    destruct (Describe.select_number d) as [|x l] eqn:Hx;
      rewrite <- Hsel; simpl; reflexivity.
  - intros c s Hc Hk. split; [|done].
    assert ((c, s) ∈ Describe.select_number d) as Hin.
    { apply list_elem_of_filter. split; [|done]. by apply is_number_kind. }
    destruct (Describe.select_number d) as [|x l] eqn:Hx;
      [by apply elem_of_nil in Hin|].
    apply list_elem_of_fmap. exists (c, s). split; [|done].
    simpl. by rewrite describe_1d_numeric.
  - intros Hnum c stats Hin. rewrite <- Hsel in Hnum.
    destruct (Describe.select_number d) as [|x l] eqn:Hx; [done|].
    apply list_elem_of_fmap in Hin as ([c' s'] & [= -> ->] & Hin).
    rewrite <- Hx in Hin. apply list_elem_of_filter in Hin as [Hk _].
    apply is_number_kind in Hk. simpl in *. by rewrite describe_1d_numeric.
Qed.

Lemma C5_summary_witness :
  ∃ t, (generate_summary (λ _, "") Sample.ready).1
       = Return (String.concat nl (summary_parts (λ _, "") (this Sample.ready) t))
       ∧ t.*1 = ["km/h"].
Proof.
  destruct (C5_summary (λ _, "") Sample.ready sample_parsed)
    as (t & Hrun & _ & _ & _ & _ & Ht & _).
  exists t. split; [|exact Ht].
  rewrite Hrun. reflexivity.
Defined.

(** With text columns only, the statistics are those of the text
    columns (count, unique, top, freq), not of the numeric ones. *)
Lemma C5_no_numeric_counterexample :
  numeric_columns (df (this Sample.towns_ready)) = []
  ∧ ∃ t, Describe.describe (df (this Sample.towns_ready)) = Some t
         ∧ t.*1 = ["city"]
         ∧ t.*1 ≠ numeric_columns (df (this Sample.towns_ready))
         ∧ (∀ c stats, (c, stats) ∈ t → stats.*1 = ["count"; "unique"; "top"; "freq"])
         ∧ (generate_summary (λ _, "") Sample.towns_ready).1
           = Return (String.concat nl
                       (summary_parts (λ _, "") (this Sample.towns_ready) t)).
Proof.
  split; [reflexivity|]. eexists. split; [reflexivity|].
  split; [reflexivity|]. split; [discriminate|]. split.
  - intros c stats [[= -> ->]|Hin%elem_of_nil]%elem_of_cons; [reflexivity|done].
  - reflexivity.
Qed.

(** ** Persisting a chart *)



Lemma init_file_name file_path w a w' :
  __init__ file_path w = (Return a, w') →
  file_name a = (OsPath.splitext (OsPath.basename file_path)).1.
Proof.
  unfold __init__, bind, Os.path_exists, PdIO.read_csv, raise, ret. simpl.
  destruct (bool_decide _); simpl; [|done].
  destruct (fs w !! file_path) as [[|rd wr [[d|]|f]]|]; simpl;
    try destruct rd; try done.
  by intros [= <- _].
Qed.








(** * Further properties of the class and of the script *)

(** ** What a request does to the files and to the figures *)

Lemma write_file_Return path data (f f' : gmap string inode) :
  Os.write_file path data f = Return f' →
  ∃ r w, f' = <[path := Regular r w data]> f.
Proof.
  unfold Os.write_file.
  destruct (f !! path) as [[|r w old]|].
  - discriminate.
  - destruct w; [|discriminate]. intros [= <-]. by exists r, true.
  - destruct (decide _); [intros [= <-]; by exists true, true|].
    destruct (f !! OsPath.dirname path) as [[|? ? ?]|]; try discriminate.
    intros [= <-]. by exists true, true.
Qed.

(** The outcome of a chart method, in all its cases. *)
Lemma render_cases k column n save σ :
  render k column n save σ = (Raise (ColumnNotFoundError column), σ)
  ∨ (k = Histogram ∧ render k column n save σ = (Raise (NotNumericError column), σ))
  ∨ ∃ s, Pd.getitem (df (this σ)) column = Some s
         ∧ render k column n save σ
           = rendered (chart_figure k column n s) (chart_path (this σ) column k) save σ.
Proof.
  destruct (decide (column ∈ Pd.columns (df (this σ)))) as [Hc|Hc].
  - destruct (getitem_is_Some _ _ Hc) as [s Hs].
    destruct k.
    + right. right. exists s. split; [done|]. by apply render_run.
    + right. right. exists s. split; [done|]. by apply render_run.
    + destruct (Pd.is_numeric_dtype (Pd.s_dtype s)) eqn:Hn.
      * right. right. exists s. split; [done|]. by apply render_run.
      * right. left. split; [done|]. by eapply plot_histogram_not_numeric.
  - left. destruct k; simpl.
    + by apply plot_bar_chart_absent.
    + by apply plot_pie_chart_absent.
    + by apply plot_histogram_absent.
Qed.

Lemma rendered_effect fig column k save σ :
  column ∈ Pd.columns (df (this σ)) →
  chart_effect (this σ) (world σ)
    (world (rendered fig (chart_path (this σ) column k) save σ).2).
Proof.
  intros Hc. unfold rendered. destruct save; simpl.
  - destruct (Os.write_file _ _ _) as [f'|e] eqn:Hw; simpl.
    + apply write_file_Return in Hw as (r & wr & ->). split.
      * intros p. destruct (decide (p = chart_path (this σ) column k)) as [->|Hp].
        -- right. exists column, k, r, wr, fig.
           split; [done|]. split; [done|]. apply lookup_insert_eq.
        -- left. by apply lookup_insert_ne.
      * by exists [fig].
    + split; [by left | by exists [fig]].
  - split; [by left | by exists [fig]].
Qed.

Lemma render_effect k column n save σ :
  chart_effect (this σ) (world σ) (world (render k column n save σ).2).
Proof.
  destruct (render_cases k column n save σ) as [->|[[_ ->]|(s & Hs & ->)]].
  - split; [by left | exists []; split; [done | simpl; lia]].
  - split; [by left | exists []; split; [done | simpl; lia]].
  - apply rendered_effect. by apply getitem_Some in Hs as [? _].
Qed.

Lemma bind_ret_state {Σ A B} (m : M Σ A) (f : A → B) σ :
  (bind m (λ a, ret (f a)) σ).2 = (m σ).2.
Proof. unfold bind, ret. by destruct (m σ) as [[a|e] σ']. Qed.

Lemma perform_effect str_of c σ :
  chart_effect (this σ) (world σ) (world (perform str_of c σ).2).
Proof.
  destruct c as [|column n save|column n save|column n save]; simpl;
    rewrite bind_ret_state.
  - rewrite generate_summary_run. simpl. split; [by left | exists []; split; [done | simpl; lia]].
  - apply (render_effect Bar).
  - apply (render_effect Pie).
  - apply (render_effect Histogram).
Qed.

Lemma session_effect str_of cs σ :
  (∀ p, fs (world (session str_of cs σ).2) !! p = fs (world σ) !! p
        ∨ ∃ column k r wr fig,
            p = chart_path (this σ) column k
            ∧ column ∈ Pd.columns (df (this σ))
            ∧ fs (world (session str_of cs σ).2) !! p
              = Some (Regular r wr (Png fig)))
  ∧ ∃ new, figures (world (session str_of cs σ).2) = new ++ figures (world σ)
           ∧ (length new ≤ length cs)%nat.
Proof.
  revert σ. induction cs as [|c cs IH]; intros σ; simpl.
  { split; [by left | exists []; split; [done | simpl; lia]]. }
  pose proof (perform_effect str_of c σ) as [Hfs (new1 & Hfig & Hlen)].
  pose proof (preserves_perform str_of c σ) as Hthis.
  destruct (perform str_of c σ) as [r σ1]. simpl in *.
  specialize (IH σ1). destruct (session str_of cs σ1) as [rs σ2]. simpl in *.
  destruct IH as [IHfs (new2 & IHfig & IHlen)]. rewrite Hthis in IHfs. split.
  - intros p. destruct (IHfs p) as [Hsame|Hpng]; [|by right].
    rewrite Hsame. destruct (Hfs p) as [?|(column & k & r' & wr & fig & ? & ? & ?)];
      [by left|]. right. by exists column, k, r', wr, fig.
  - exists (new2 ++ new1). rewrite IHfig, Hfig, length_app.
    split; [by rewrite app_assoc | lia].
Qed.

Lemma removeprefix_app pre s : PyStr.removeprefix pre (pre +:+ s) = Some s.
Proof.
  induction pre as [|a pre IH]; [done|].
  rewrite StrFacts.app_cons. simpl. by rewrite decide_True.
Qed.

Lemma chart_path_outputs a column k :
  PyStr.startswith (chart_path a column k) "outputs/" = true.
Proof.
  unfold PyStr.startswith, chart_path. rewrite removeprefix_app.
  by apply bool_decide_eq_true_2.
Qed.

(** X1: whatever is asked of an analyzer, in any number of requests, a
    path of the file system holds afterwards what it held before unless
    it is the chart path of one of the data set's columns, where a PNG
    then is; so nothing outside [outputs/] changes and no entry is ever
    removed. *)
Theorem session_writes_only_charts str_of cs σ p :
  let fs' := fs (world (session str_of cs σ).2) in
  (fs' !! p = fs (world σ) !! p
   ∨ ∃ column k r wr fig,
       p = chart_path (this σ) column k
       ∧ column ∈ Pd.columns (df (this σ))
       ∧ fs' !! p = Some (Regular r wr (Png fig)))
  ∧ (PyStr.startswith p "outputs/" = false → fs' !! p = fs (world σ) !! p)
  ∧ (is_Some (fs (world σ) !! p) → is_Some (fs' !! p)).
Proof.
  intros fs'. pose proof (proj1 (session_effect str_of cs σ) p) as Hp.
  fold fs' in Hp. split; [done|]. split.
  - intros Hout. destruct Hp as [?|(column & k & ? & ? & ? & -> & _)]; [done|].
    by rewrite chart_path_outputs in Hout.
  - intros Hsome. destruct Hp as [->|(? & ? & ? & ? & ? & _ & _ & ->)]; [done|].
    by eexists.
Qed.

(** X2: the class never closes a figure: after any requests the figures
    that were open are still there, under at most one new figure per
    request. *)
Theorem session_keeps_figures str_of cs σ :
  ∃ new, figures (world (session str_of cs σ).2) = new ++ figures (world σ)
         ∧ (length new ≤ length cs)%nat.
Proof. apply session_effect. Qed.

(** X3: when a chart method returns a figure, that figure is the chart
    of the requested column, it is pyplot's current figure and it is
    still open, on top of the figures that were open before; without
    persistence no file has been touched. *)
Theorem render_returns_open_figure k column n save σ fig σ' :
  render k column n save σ = (Return fig, σ') →
  figures (world σ') = fig :: figures (world σ)
  ∧ (∃ s, Pd.getitem (df (this σ)) column = Some s
          ∧ fig = chart_figure k column n s)
  ∧ (save = false →
     fs (world σ') = fs (world σ) ∧ trace (world σ') = trace (world σ)).
Proof.
  destruct (render_cases k column n save σ) as [->|[[_ ->]|(s & Hs & ->)]];
    [discriminate..|].
  unfold rendered. destruct save; simpl.
  - destruct (Os.write_file _ _ _); [|discriminate].
    intros [= <- <-]. simpl. split; [done|]. split; [by exists s | done].
  - intros [= <- <-]. simpl. split; [done|]. split; [by exists s | done].
Qed.

Lemma render_returns_open_figure_witness :
  figures (world (render Pie "city" 2 false Sample.ready).2)
  = pie_figure "city" 2 Sample.city :: figures (world Sample.ready).
Proof.
  apply (render_returns_open_figure Pie "city" 2 false Sample.ready
           (pie_figure "city" 2 Sample.city)
           (render Pie "city" 2 false Sample.ready).2).
  vm_compute. reflexivity.
Defined.



(** ** The number of entries shown *)




(** ** Paths and names *)

Lemma str_length_app (a b : string) :
  String.length (a +:+ b) = (String.length a + String.length b)%nat.
Proof.
  induction a as [|x a IH]; [done|]. rewrite StrFacts.app_cons. simpl. by rewrite IH.
Qed.

Lemma str_app_inj_tail (a b s t : string) :
  String.length s = String.length t → a +:+ s = b +:+ t → a = b ∧ s = t.
Proof.
  revert b. induction a as [|x a IH]; intros [|y b] Hlen Heq.
  - done.
  - rewrite StrFacts.app_nil_l in Heq. subst s.
    rewrite StrFacts.app_cons in Hlen. simpl in Hlen.
    rewrite str_length_app in Hlen. lia.
  - rewrite StrFacts.app_nil_l in Heq. subst t.
    rewrite StrFacts.app_cons in Hlen. simpl in Hlen.
    rewrite str_length_app in Hlen. lia.
  - rewrite !StrFacts.app_cons in Heq. injection Heq as -> Heq.
    destruct (IH b Hlen Heq) as [-> ->]. done.
Qed.

(** X6: for one analyzer, the charts of different columns or of
    different kinds are kept in different files. *)
Theorem chart_path_inj a column column' k k' :
  chart_path a column k = chart_path a column' k' → column = column' ∧ k = k'.
Proof.
  unfold chart_path. intros H.
  apply (inj (String.append "outputs/")) in H.
  apply (inj (String.append (file_name a))) in H.
  apply (inj (String.append "_")) in H.
  apply str_app_inj_tail in H as [-> Hk]; [|by destruct k, k'].
  split; [done|]. by destruct k, k'.
Qed.

Lemma chart_path_inj_witness :
  chart_path Sample.analyzer "city" Bar ≠ chart_path Sample.analyzer "city" Pie.
Proof.
  intros H.
  destruct (chart_path_inj Sample.analyzer "city" "city" Bar Pie H) as [_ Hk].
  discriminate Hk.
Defined.

Lemma rfind_app_last c (a b : string) :
  ¬ Str.mem c b →
  Str.rfind c (a +:+ String c b) = Z.of_nat (String.length a).
Proof.
  intros Hb. induction a as [|x a IH].
  - rewrite StrFacts.app_nil_l. simpl. rewrite (StrFacts.rfind_absent _ _ Hb).
    simpl. by rewrite decide_True.
  - rewrite StrFacts.app_cons. simpl. rewrite IH.
    rewrite (proj2 (Z.leb_le 0 _)) by lia. lia.
Qed.

Lemma from_app (a r : string) : Str.from (String.length a) (a +:+ r) = r.
Proof. induction a as [|x a IH]; [by destruct r|]. by rewrite StrFacts.app_cons. Qed.

Lemma upto_app (a r : string) : Str.upto (String.length a) (a +:+ r) = a.
Proof.
  induction a as [|x a IH]; [by destruct r|].
  rewrite StrFacts.app_cons. simpl. by rewrite IH.
Qed.

Lemma basename_join dir b :
  ¬ Str.mem OsPath.sep b → OsPath.basename (dir +:+ String OsPath.sep b) = b.
Proof.
  intros Hb. unfold OsPath.basename. rewrite (rfind_app_last _ _ _ Hb).
  replace (Z.to_nat (Z.of_nat (String.length dir) + 1))
    with (String.length (dir +:+ String OsPath.sep "")).
  - replace (dir +:+ String OsPath.sep b)
      with ((dir +:+ String OsPath.sep "") +:+ b)
      by (by rewrite StrFacts.app_assoc).
    apply from_app.
  - rewrite str_length_app. simpl. lia.
Qed.

Lemma basename_plain b :
  ¬ Str.mem OsPath.sep b → OsPath.basename b = b.
Proof.
  intros Hb. unfold OsPath.basename. by rewrite (StrFacts.rfind_absent _ _ Hb).
Qed.

Lemma splitext_stem stem ext :
  ¬ Str.mem OsPath.sep stem → ¬ Str.mem OsPath.sep ext →
  ¬ Str.mem OsPath.extsep ext →
  OsPath.splitext (stem +:+ String OsPath.extsep ext)
  = if Str.all_eq OsPath.extsep stem
    then (stem +:+ String OsPath.extsep ext, "")
    else (stem, String OsPath.extsep ext).
Proof.
  intros Hs He Hd. unfold OsPath.splitext.
  rewrite (StrFacts.rfind_absent OsPath.sep).
  2:{ rewrite StrFacts.mem_app. simpl. unfold OsPath.sep, OsPath.extsep in *.
      naive_solver. }
  rewrite (rfind_app_last _ _ _ Hd).
  rewrite (proj2 (Z.ltb_lt _ _)) by lia. simpl.
  replace (Z.to_nat (Z.of_nat (String.length stem) - (-1 + 1)))
    with (String.length stem) by lia.
  rewrite Nat2Z.id, upto_app, from_app. done.
Qed.

(** X7: a file [stem.ext], in any directory, gets the display name
    [stem], provided the stem has no slash and is not made of dots only
    and the extension has neither a dot nor a slash. *)
Theorem display_name_stem dir stem ext w a w' :
  ¬ Str.mem "/" stem → ¬ Str.mem "/" ext → ¬ Str.mem "." ext →
  Str.all_eq "." stem = false →
  __init__ (dir +:+ "/" +:+ stem +:+ "." +:+ ext) w = (Return a, w') →
  file_name a = stem.
Proof.
  intros Hs He Hd Hdots Hinit.
  rewrite (init_file_name _ _ _ _ Hinit).
  change (dir +:+ "/" +:+ stem +:+ "." +:+ ext)
    with (dir +:+ String OsPath.sep (stem +:+ String OsPath.extsep ext)).
  rewrite basename_join.
  2:{ rewrite StrFacts.mem_app. simpl. unfold OsPath.sep. naive_solver. }
  rewrite splitext_stem by done.
  unfold OsPath.extsep. by rewrite Hdots.
Qed.

Lemma display_name_stem_witness :
  file_name (this Sample.ready) = "sales".
Proof.
  assert (∀ c s, Str.mem c s → bool_decide (Str.mem c s) = true) as Hdec.
  { intros c s H. by apply bool_decide_eq_true_2. }
  apply (display_name_stem "data" "sales" "csv" (module_init Sample.boot).2
           (this Sample.ready) (world Sample.ready)).
  - intros H. apply Hdec in H. vm_compute in H. discriminate.
  - intros H. apply Hdec in H. vm_compute in H. discriminate.
  - intros H. apply Hdec in H. vm_compute in H. discriminate.
  - reflexivity.
  - vm_compute. reflexivity.
Defined.

(** X8: when only dots precede the last dot of the base name, as in
    [.csv], nothing is taken for an extension: the display name is the
    whole base name. *)
Theorem display_name_leading_dots dir dots ext w a w' :
  Str.all_eq "." dots = true → ¬ Str.mem "/" ext → ¬ Str.mem "." ext →
  __init__ (dir +:+ "/" +:+ dots +:+ "." +:+ ext) w = (Return a, w') →
  file_name a = dots +:+ "." +:+ ext.
Proof.
  intros Hdots He Hd Hinit.
  assert (¬ Str.mem OsPath.sep dots) as Hs.
  { intros Hm. by apply (StrFacts.all_eq_spec _ _ Hdots) in Hm. }
  rewrite (init_file_name _ _ _ _ Hinit).
  change (dir +:+ "/" +:+ dots +:+ "." +:+ ext)
    with (dir +:+ String OsPath.sep (dots +:+ String OsPath.extsep ext)).
  rewrite basename_join.
  2:{ rewrite StrFacts.mem_app. simpl. unfold OsPath.sep. naive_solver. }
  rewrite splitext_stem by done.
  unfold OsPath.extsep. by rewrite Hdots.
Qed.

Lemma display_name_leading_dots_witness :
  ∃ a w', __init__ "data/.csv" Cases.hidden = (Return a, w')
          ∧ file_name a = ".csv".
Proof.
  assert (∀ c s, Str.mem c s → bool_decide (Str.mem c s) = true) as Hdec.
  { intros c s H. by apply bool_decide_eq_true_2. }
  assert (__init__ "data/.csv" Cases.hidden
          = (Return {| df := Sample.towns; file_name := ".csv" |},
             logged (EvReadCsv "data/.csv") Cases.hidden)) as Hinit.
  { vm_compute. reflexivity. }
  eexists. eexists. split; [exact Hinit|].
  apply (display_name_leading_dots "data" "" "csv" Cases.hidden
           {| df := Sample.towns; file_name := ".csv" |}
           (logged (EvReadCsv "data/.csv") Cases.hidden)).
  - reflexivity.
  - intros H. apply Hdec in H. vm_compute in H. discriminate.
  - intros H. apply Hdec in H. vm_compute in H. discriminate.
  - exact Hinit.
Defined.

(** ** The outputs folder *)

Lemma module_init_run w :
  module_init w
  = if bool_decide (is_Some (fs w !! "outputs")) then (Return (), w)
    else (Return (),
          with_fs (<["outputs" := Directory]> (fs w))
                  (logged (EvMakedirs "outputs") w)).
Proof.
  unfold module_init, bind, Os.path_exists, Os.makedirs, ret. simpl.
  destruct (fs w !! "outputs") as [x|] eqn:Hx.
  - by rewrite bool_decide_eq_true_2 by (by eexists).
  - rewrite bool_decide_eq_false_2 by (by intros [? ?]). simpl. by rewrite Hx.
Qed.

(** X9: loading the module never fails, changes no entry that is
    there, leaves [outputs] in place as an entry of the file system,
    and loading it again changes nothing at all. *)
Theorem module_init_idempotent w p :
  (module_init w).1 = Return ()
  ∧ (is_Some (fs w !! p) → fs (module_init w).2 !! p = fs w !! p)
  ∧ (p ≠ "outputs" → fs (module_init w).2 !! p = fs w !! p)
  ∧ is_Some (fs (module_init w).2 !! "outputs")
  ∧ module_init (module_init w).2 = (Return (), (module_init w).2).
Proof.
  rewrite !module_init_run.
  destruct (bool_decide (is_Some (fs w !! "outputs"))) eqn:Hb; simpl.
  - rewrite Hb. split_and!; try done. by apply bool_decide_eq_true in Hb.
  - apply bool_decide_eq_false in Hb.
    rewrite bool_decide_eq_true_2
      by (rewrite lookup_insert_eq; by eexists).
    split_and!; try done.
    + intros Hp. apply lookup_insert_ne. by intros <-.
    + intros Hp. by apply lookup_insert_ne.
    + rewrite lookup_insert_eq. by eexists.
Qed.



(** ** Construction leaves the process alone *)

(** X11: whatever its outcome, construction changes no file and opens
    no figure; it calls [read_csv] once when the path exists and not at
    all when it does not. *)
Theorem init_effect file_path w :
  fs (__init__ file_path w).2 = fs w
  ∧ figures (__init__ file_path w).2 = figures w
  ∧ trace (__init__ file_path w).2
    = (if bool_decide (is_Some (fs w !! file_path))
       then EvReadCsv file_path :: trace w else trace w).
Proof.
  unfold __init__, bind, Os.path_exists, PdIO.read_csv, raise, ret. simpl.
  destruct (fs w !! file_path) as [x|] eqn:Hx.
  - rewrite bool_decide_eq_true_2 by (by eexists). simpl. rewrite Hx.
    destruct x as [|rd wr [[d|]|f]]; simpl; try destruct rd; done.
  - by rewrite bool_decide_eq_false_2 by (by intros [? ?]).
Qed.

(** ** What the two charts show, for any [top_n] *)



Lemma pct_sum_fmap (l : list (Pd.scalar * nat)) S :
  (pct_sum ((λ e, {| Plt.w_label := e.1; Plt.w_size := e.2;
                     Plt.w_pct := Plt.pct_of e.2 S |}) <$> l)
   == 100 * (inject_Z (Z.of_nat (Plt.total l.*2)) / inject_Z (Z.of_nat S)))%Q.
Proof.
  induction l as [|e l IH].
  - unfold Plt.total, Qdiv. simpl. ring.
  - rewrite !fmap_cons.
    change (Plt.total (e.2 :: l.*2)) with (e.2 + Plt.total l.*2)%nat.
    change (pct_sum (?w :: ?ws)) with (Plt.w_pct w + pct_sum ws)%Q.
    rewrite IH, Nat2Z.inj_add, inject_Z_plus. unfold Plt.pct_of, Qdiv. simpl. ring.
Qed.

(** X12: whenever the pie has a wedge, that is for a positive [top_n]
    and a column with at least one entry that is not missing, the
    percentages of its wedges add up to 100, however many values are
    left out. *)
Theorem pie_percentages_total column top_n σ s :
  Pd.getitem (df (this σ)) column = Some s →
  (0 < top_n)%Z →
  observed s ≠ [] →
  let sel := selection s top_n in
  (plot_pie_chart column top_n false σ).1 = Return (pie_figure column top_n s)
  ∧ Plt.artists (pie_figure column top_n s)
    = [Plt.PieChart (Plt.pie_wedges sel.*2 sel.*1) "%1.1f%%" "pastel"]
  ∧ (pct_sum (Plt.pie_wedges sel.*2 sel.*1) == 100)%Q.
Proof.
  intros Hs Hn Hobs sel.
  rewrite (plot_pie_chart_run _ _ _ _ _ Hs).
  split; [done|]. split; [done|].
  rewrite pie_wedges_fmap, pct_sum_fmap.
  assert (0 < Plt.total sel.*2)%nat as Hpos.
  { assert (sel = take (Z.to_nat top_n) (Pd.value_counts s)) as Hsel.
    { unfold sel, selection. by rewrite head_nonneg by lia. }
    assert (length (Pd.value_counts s) = length (remove_dups (observed s)))
      as Hlen by apply ranking_length.
    destruct (Pd.value_counts s) as [|e r] eqn:Hr.
    { exfalso. apply Hobs.
      destruct (observed s) as [|x l]; [done|].
      assert (x ∈ remove_dups (x :: l)) as Hx
        by (apply elem_of_remove_dups; by left).
      destruct (remove_dups (x :: l)); [by apply elem_of_nil in Hx | done]. }
    assert (e ∈ Pd.value_counts s) as He by (rewrite Hr; by left).
    apply ranking_count_pos in He.
    destruct (Z.to_nat top_n) as [|k] eqn:Hk; [lia|].
    rewrite Hsel. simpl. lia. }
  set (x := inject_Z (Z.of_nat (Plt.total sel.*2))).
  assert (¬ (x == 0)%Q) as Hx.
  { intros H0. pose proof (inject_nat_pos _ Hpos) as Hlt. fold x in Hlt.
    rewrite H0 in Hlt. by apply Qlt_irrefl in Hlt. }
  unfold Qdiv. rewrite Qmult_inv_r by done. ring.
Qed.

Lemma pie_percentages_total_witness :
  (pct_sum (Plt.pie_wedges (selection Sample.city 2).*2 (selection Sample.city 2).*1)
   == 100)%Q.
Proof.
  apply (pie_percentages_total "city" 2 Sample.ready Sample.city).
  - reflexivity.
  - reflexivity.
  - discriminate.
Defined.







(** ** The files offered for selection *)

Lemma removeprefix_Some pre s r :
  PyStr.removeprefix pre s = Some r → s = pre +:+ r.
Proof.
  revert s. induction pre as [|a pre IH]; intros s; simpl.
  - by intros [= ->].
  - destruct s as [|b s]; [done|].
    destruct (decide (a = b)) as [->|]; [|done].
    intros H. rewrite StrFacts.app_cons. f_equal. by apply IH.
Qed.

Lemma entry_name_spec d p n :
  Posix.entry_name d p = Some n ↔ p = d +:+ "/" +:+ n ∧ n ≠ "" ∧ ¬ Str.mem "/" n.
Proof.
  unfold Posix.entry_name. split.
  - destruct (PyStr.removeprefix (d +:+ "/") p) as [m|] eqn:Hm; [|done].
    destruct (decide _) as [[Hne Hsl]|]; [|done]. intros [= ->].
    apply removeprefix_Some in Hm. by rewrite StrFacts.app_assoc in Hm.
  - intros (-> & Hne & Hsl). rewrite <- StrFacts.app_assoc, removeprefix_app.
    by rewrite decide_True.
Qed.

Lemma elem_of_entries d (m : gmap string inode) n :
  n ∈ omap (Posix.entry_name d) (map_to_list m).*1
  ↔ is_Some (m !! (d +:+ "/" +:+ n)) ∧ n ≠ "" ∧ ¬ Str.mem "/" n.
Proof.
  rewrite list_elem_of_omap. split.
  - intros (p & Hp & Hn). apply entry_name_spec in Hn as (-> & Hne & Hsl).
    split; [|done]. apply list_elem_of_fmap in Hp as ([p x] & -> & Hpx).
    apply elem_of_map_to_list in Hpx. by exists x.
  - intros ([x Hx] & Hne & Hsl). exists (d +:+ "/" +:+ n). split.
    + apply list_elem_of_fmap. exists (d +:+ "/" +:+ n, x).
      split; [done|]. by apply elem_of_map_to_list.
    + by apply entry_name_spec.
Qed.

Lemma csv_files_Return w files w' :
  csv_files w = (Return files, w') →
  files = filter (λ f, PyStr.endswith f ".csv" = true)
            (omap (Posix.entry_name data_folder) (map_to_list (fs w')).*1)
  ∧ fs w' !! data_folder = Some Directory.
Proof.
  unfold csv_files, bind, Os.path_exists, Os.makedirs, Posix.listdir, ret. simpl.
  destruct (fs w !! data_folder) as [x|] eqn:Hx.
  - rewrite bool_decide_eq_true_2 by (by eexists). simpl. rewrite Hx.
    destruct x; [|discriminate]. by intros [= <- <-].
  - rewrite bool_decide_eq_false_2 by (by intros [? ?]). simpl. rewrite Hx. simpl.
    rewrite lookup_insert_eq. intros [= <- <-]. simpl.
    split; [done|]. apply lookup_insert_eq.
Qed.

(** X15: when the listing returns, the files it offers are exactly the
    entries of the data folder whose name ends in [.csv]. *)
Theorem csv_files_listed w files w' f :
  csv_files w = (Return files, w') →
  f ∈ files
  ↔ PyStr.endswith f ".csv" = true
    ∧ ¬ Str.mem "/" f
    ∧ is_Some (fs w' !! ("data/" +:+ f)).
Proof.
  intros [-> Hdir]%csv_files_Return.
  rewrite list_elem_of_filter, elem_of_entries. split.
  - intros (He & Hs & _ & Hsl). done.
  - intros (He & Hsl & Hs). split_and!; try done. by intros ->.
Qed.

Lemma csv_files_listed_witness :
  "sales.csv" ∈ (["sales.csv"; "locked.csv"; "towns.csv"] : list string)
  ↔ PyStr.endswith "sales.csv" ".csv" = true
    ∧ ¬ Str.mem "/" "sales.csv"
    ∧ is_Some (fs Sample.boot !! "data/sales.csv").
Proof.
  apply (csv_files_listed Sample.boot
           ["sales.csv"; "locked.csv"; "towns.csv"] Sample.boot "sales.csv").
  vm_compute. reflexivity.
Defined.

Lemma join_data f :
  ¬ Str.mem "/" f → Posix.join data_folder f = "data/" +:+ f.
Proof.
  intros Hsl. unfold Posix.join.
  assert (PyStr.startswith f "/" = false) as ->.
  { unfold PyStr.startswith. apply bool_decide_eq_false_2.
    destruct f as [|b f]; simpl; [by intros [? ?]|].
    destruct (decide _) as [Hb|]; [|by intros [? ?]].
    exfalso. apply Hsl. by left. }
  reflexivity.
Qed.

(** X16: a file picked from the listing is never the placeholder, so it
    is opened; its path is the data folder, a slash and the name; the
    existence check of the constructor passes, so that no
    [FileNotFoundError] is raised and [read_csv] is called. *)
Theorem listed_file_is_opened w files w' f :
  csv_files w = (Return files, w') →
  f ∈ files →
  f ≠ "Select a file"
  ∧ open_selected f w'
    = bind (__init__ ("data/" +:+ f)) (λ a, ret (Some a)) w'
  ∧ (∀ msg, (open_selected f w').1 ≠ Raise (FileNotFoundError msg))
  ∧ trace (open_selected f w').2 = EvReadCsv ("data/" +:+ f) :: trace w'.
Proof.
  intros Hfiles Hf.
  apply (csv_files_listed _ _ _ f Hfiles) in Hf as (He & Hsl & [x Hx]).
  assert (f ≠ "Select a file") as Hne.
  { intros ->. vm_compute in He. discriminate. }
  assert (open_selected f w'
          = bind (__init__ ("data/" +:+ f)) (λ a, ret (Some a)) w') as Hopen.
  { unfold open_selected. rewrite decide_True by done. by rewrite join_data. }
  split; [done|]. split; [done|]. rewrite Hopen.
  unfold bind, __init__, bind, Os.path_exists, PdIO.read_csv, raise, ret. simpl.
  rewrite bool_decide_eq_true_2 by (by eexists). simpl. rewrite Hx.
  destruct x as [|rd wr [[d|]|fig]]; simpl; try destruct rd; simpl; done.
Qed.

Lemma listed_file_is_opened_witness :
  (open_selected "towns.csv" Sample.boot).1
  = Return (Some {| df := Sample.towns; file_name := "towns" |}).
Proof.
  destruct (listed_file_is_opened Sample.boot
              ["sales.csv"; "locked.csv"; "towns.csv"] Sample.boot "towns.csv")
    as (_ & Hopen & _).
  - vm_compute. reflexivity.
  - right. right. left.
  - rewrite Hopen. vm_compute. reflexivity.
Defined.

(** ** The chart tab *)

Lemma remove_figure_head fig l : remove_figure fig (fig :: l) = l.
Proof. simpl. by rewrite decide_True. Qed.






(** X18: with persistence on, if the bar chart cannot be written the
    tab stops there with the exception of the write: the pie chart and
    the histogram are neither drawn nor shown, no file has changed, and
    the figure of the bar chart is left open. *)
Theorem tab_failed_save column top_n bins p s e :
  Pd.getitem (df (this (app p))) column = Some s →
  Os.write_file (chart_path (this (app p)) column Bar)
    (Png (bar_figure column top_n s)) (fs (world (app p))) = Raise e →
  (visualizations column top_n true bins p).1 = Raise e
  ∧ shown (visualizations column top_n true bins p).2
    = shown p ++ [StHeader "Visualizations";
                  StSubheader ("Bar Chart: " +:+ column)]
  ∧ fs (world (app (visualizations column top_n true bins p).2))
    = fs (world (app p))
  ∧ figures (world (app (visualizations column top_n true bins p).2))
    = bar_figure column top_n s :: figures (world (app p)).
Proof.
  intros Hs Hw.
  assert (visualizations column top_n true bins p
          = (Raise e,
             {| app := {| this := this (app p);
                          world :=
                            logged (EvSavefig (chart_path (this (app p)) column Bar))
                              (with_figures
                                 (bar_figure column top_n s
                                  :: figures (world (app p)))
                                 (world (app p))) |};
                shown := shown p ++ [StHeader "Visualizations";
                                     StSubheader ("Bar Chart: " +:+ column)] |}))
    as ->.
  { unfold visualizations.
    do 2 (unfold bind at 1; unfold st_show at 1; cbv beta iota; cbn [app shown]).
    unfold bind at 1. unfold on_app at 1. cbn [app shown].
    rewrite (plot_bar_chart_run column top_n true (app p) s Hs).
    unfold rendered. cbn [fs logged with_figures]. rewrite Hw.
    by rewrite <- app_assoc. }
  done.
Qed.

Lemma tab_failed_save_witness :
  shown (visualizations "km/h" 2 true 10 Cases.page).2
  = [StHeader "Visualizations"; StSubheader "Bar Chart: km/h"].
Proof.
  apply (tab_failed_save "km/h" 2 10 Cases.page Sample.speed
           (FileNotFoundError
              "[Errno 2] No such file or directory: 'outputs/sales_km/h_bar_chart.png'")).
  - reflexivity.
  - vm_compute. reflexivity.
Defined.

(** ** The two frame properties on the sample *)

Lemma session_writes_only_charts_witness :
  fs (world (session (λ _, "")
               [PlotBarChart "city" 10 true; GenerateSummary;
                PlotHistogram "km/h" 10 true] Sample.ready).2)
    !! "data/sales.csv"
  = fs (world Sample.ready) !! "data/sales.csv".
Proof.
  apply (session_writes_only_charts (λ _, "")
           [PlotBarChart "city" 10 true; GenerateSummary;
            PlotHistogram "km/h" 10 true] Sample.ready "data/sales.csv").
  vm_compute. reflexivity.
Defined.

Lemma module_init_idempotent_witness :
  fs (module_init Sample.boot).2 !! "data" = fs Sample.boot !! "data".
Proof.
  destruct (module_init_idempotent Sample.boot "data") as (_ & H & _).
  apply H. exists Directory. vm_compute. reflexivity.
Defined.
